(** * Dual-LLM Q&A agents: the session orchestrator and its HTTP endpoint

    A shallow embedding of [app/agents.py], [app/schemas.py] and
    [app/main.py].  Python objects that are mutated in place (the question
    agent, the list of pairs) are passed explicitly; everything outside the
    process (the completion service, the environment, the clock, the file
    system) is an operation on an abstract [World]. *)

From Stdlib Require Import ZArith NArith List Bool Lia String Ascii.
From Stdlib Require Import Floats.PrimFloat Floats.FloatOps.
From Stdlib Require Import Numbers.Cyclic.Int63.Uint63.
Import ListNotations.
Open Scope Z_scope.

Set Warnings "-inexact-float".

(** ** Python values and built-ins *)

Module Py.

(** A [str] is a sequence of Unicode code points. *)
Definition char := N.
Definition str := list char.

(** A literal of the source text (the literals of this program are ASCII). *)
Definition lit (s : string) : str :=
  List.map N_of_ascii (list_ascii_of_string s).

Definition nl : str := [10%N].

Definition len {A} (l : list A) : Z := Z.of_nat (List.length l).

(** [str.isspace] for one character: the code points CPython lists as
    whitespace. *)
Definition isspace (c : char) : bool :=
  ((9 <=? c) && (c <=? 13) || (28 <=? c) && (c <=? 32)
   || (c =? 133) || (c =? 160) || (c =? 5760)
   || (8192 <=? c) && (c <=? 8202)
   || (c =? 8232) || (c =? 8233) || (c =? 8239) || (c =? 8287)
   || (c =? 12288))%N.

Fixpoint lstrip (s : str) : str :=
  match s with
  | [] => []
  | c :: s' => if isspace c then lstrip s' else s
  end.

Definition rstrip (s : str) : str := rev (lstrip (rev s)).

(** [s.strip()] *)
Definition strip (s : str) : str := rstrip (lstrip s).

(** [sep.join(parts)] *)
Fixpoint join (sep : str) (parts : list str) : str :=
  match parts with
  | [] => []
  | [p] => p
  | p :: rest => p ++ sep ++ join sep rest
  end.

(** [range(n)] *)
Definition range (n : Z) : list Z := List.map Z.of_nat (seq 0 (Z.to_nat n)).

(** [l[-k:]] for a positive [k]: the last [k] items, all of [l] when it
    has fewer. *)
Definition last_items {A} (k : nat) (l : list A) : list A :=
  skipn (List.length l - k) l.

(** [s[:k]] *)
Definition prefix {A} (k : nat) (l : list A) : list A := firstn k l.

(** A finite binary64 number, [mantissa * 2^exponent].  Python's [float]
    is binary64; the numbers of this program are finite. *)
Record float64 := { mantissa : Z; exponent : Z }.

(** [2^k] for a [k] from 0 on, and 1 below: in a comparison of two
    fractions both sides are scaled by such powers, so that no negative
    power is needed. *)
Definition pow2 (k : Z) : Z := 2 ^ Z.max 0 k.

(** [x < y] and [x <= y] on binary64 numbers: both are brought to the
    smaller of the two exponents. *)
Definition f64_ltb (x y : float64) : bool :=
  mantissa x * pow2 (exponent x - exponent y)
  <? mantissa y * pow2 (exponent y - exponent x).

Definition f64_leb (x y : float64) : bool :=
  mantissa x * pow2 (exponent x - exponent y)
  <=? mantissa y * pow2 (exponent y - exponent x).

(** For positive [a] and [b], the [e] with [2^e <= a/b < 2^(e+1)]: the
    difference of the bit lengths, or one less. *)
Definition binade (a b : Z) : Z :=
  let e0 := Z.log2 a - Z.log2 b in
  if a * pow2 (- e0) <? b * pow2 e0 then e0 - 1 else e0.

(** The integer nearest to [num / den], the even one of the two when the
    fraction is half-way. *)
Definition round_half_even (num den : Z) : Z :=
  let k := num / den in
  let r := num mod den in
  if 2 * r <? den then k
  else if den <? 2 * r then k + 1
  else if Z.even k then k else k + 1.

(** The binary64 number nearest to [a / b], for [a] from 0 on and a
    positive [b]: the quotient is rounded to a multiple of [2^q], where
    [q] leaves 53 bits to a number of the binade of [a / b] and is not
    below -1074, the exponent of the subnormal numbers. *)
Definition div_nearest (a b : Z) : float64 :=
  if a =? 0 then {| mantissa := 0; exponent := -1074 |}
  else
    let q := Z.max (binade a b - 52) (-1074) in
    {| mantissa := round_half_even (a * pow2 (- q)) (b * pow2 q);
       exponent := q |}.

(** [a / b] on two [int]s: true division, the binary64 number nearest to
    the exact quotient, whatever the size of the operands.  Python raises
    [ZeroDivisionError] for [b = 0] and [OverflowError] for a quotient
    beyond the binary64 range; this program divides an index below the
    total by a divisor that is 1 at least, so that neither occurs. *)
Definition truediv (a b : Z) : float64 :=
  let r := div_nearest (Z.abs a) (Z.abs b) in
  {| mantissa := Z.sgn a * Z.sgn b * mantissa r; exponent := exponent r |}.

(** The literals [0.33] and [0.66] of the source: the binary64 numbers
    nearest to 33/100 and 66/100, 0x1.51eb851eb851fp-2 and
    0x1.51eb851eb851fp-1. *)
Definition literal_0_33 : float64 :=
  {| mantissa := 5944751508129055; exponent := -54 |}.

Definition literal_0_66 : float64 :=
  {| mantissa := 5944751508129055; exponent := -53 |}.

(** A binary64 number as a primitive float of the kernel. *)
Definition to_prim (x : float64) : float :=
  let f := FloatOps.Z.ldexp
             (PrimFloat.of_uint63 (Uint63.of_Z (Z.abs (mantissa x))))
             (exponent x) in
  if mantissa x <? 0 then PrimFloat.opp f else f.

End Py.

Import Py.

(** ** app/schemas.py *)

Module SessionRequest.
Record t := { subject : str; num_pairs : Z }.
End SessionRequest.

Module QAPair.
Record t := { id : Z; question : str; answer : str }.
End QAPair.

Module SessionResponse.
Record t := { subject : str; num_pairs : Z; pairs : list QAPair.t }.
End SessionResponse.

(** The JSON body of a request: each field is present or absent; a field
    that is present carries a value of the type the schema declares for it
    (a string, an integer). *)
Record Body := { body_subject : option str; body_num_pairs : option Z }.

(** One entry of a validation failure: the field and what was wrong. *)
Inductive Field := f_subject | f_num_pairs | f_id.

Inductive ErrorDetail :=
| missing (loc : Field)
| string_too_short (loc : Field)
| value_error (loc : Field) (msg : str)
| greater_than_equal (loc : Field) (bound : Z)
| less_than_equal (loc : Field) (bound : Z).

(** [SessionRequest.subject_not_empty] *)
Definition subject_not_empty (v : str) : list ErrorDetail + str :=
  match strip v with
  | [] => inl [value_error f_subject
                 (lit "Subject cannot be empty or whitespace only")]
  | _ :: _ => inr (strip v)
  end.

(** [subject: str = Field(..., min_length=1)], then the field validator. *)
Definition validate_subject (v : option str) : list ErrorDetail + str :=
  match v with
  | None => inl [missing f_subject]
  | Some s =>
      if len s <? 1 then inl [string_too_short f_subject]
      else subject_not_empty s
  end.

(** [num_pairs: int = Field(default=10, ge=1, le=50)] *)
Definition validate_num_pairs (v : option Z) : list ErrorDetail + Z :=
  match v with
  | None => inr 10
  | Some n =>
      if n <? 1 then inl [greater_than_equal f_num_pairs 1]
      else if 50 <? n then inl [less_than_equal f_num_pairs 50]
      else inr n
  end.

Definition errors_of {A} (r : list ErrorDetail + A) : list ErrorDetail :=
  match r with inl es => es | inr _ => [] end.

(** Validation of a body against [SessionRequest]: every field is checked
    and the failures of all of them are reported together. *)
Definition model_validate (b : Body) : list ErrorDetail + SessionRequest.t :=
  match validate_subject (body_subject b),
        validate_num_pairs (body_num_pairs b) with
  | inr s, inr n => inr {| SessionRequest.subject := s;
                           SessionRequest.num_pairs := n |}
  | rs, rn => inl (errors_of rs ++ errors_of rn)
  end.

(** ** app/agents.py: data *)

(** The dictionary with keys [id], [question] and [answer] built by the
    orchestrator for each pair. *)
Module PairDict.
Record t := { id : Z; question : str; answer : str }.
End PairDict.

(** Construction of a [QAPair] from a pair dictionary:
    [id: int = Field(..., ge=1)] *)
Definition QAPair_validate (p : PairDict.t) : list ErrorDetail + QAPair.t :=
  if PairDict.id p <? 1 then inl [greater_than_equal f_id 1]
  else inr {| QAPair.id := PairDict.id p;
              QAPair.question := PairDict.question p;
              QAPair.answer := PairDict.answer p |}.

(** The comprehension that builds a [QAPair] from every dictionary of
    [pairs_data]: the first failure ends it. *)
Fixpoint QAPair_validate_all (ps : list PairDict.t)
  : list ErrorDetail + list QAPair.t :=
  match ps with
  | [] => inr []
  | p :: rest =>
      match QAPair_validate p with
      | inl es => inl es
      | inr q =>
          match QAPair_validate_all rest with
          | inl es => inl es
          | inr qs => inr (q :: qs)
          end
      end
  end.

(** One message of a chat completion request. *)
Record Message := { role : str; content : str }.

(** The arguments of [client.chat.completions.create]. *)
Record CompletionRequest := {
  model : str;
  messages : list Message;
  temperature : float;
  max_tokens : Z
}.

(** What the [try] block obtains from the completion service:
    [response.choices[0].message.content] as a string, or an exception
    (network failure, service error, no choice, no content) of which
    [str(e)] is kept. *)
Inductive Completion :=
| Content (text : str)
| Failure (message : str).

Definition Exchange : Type := CompletionRequest * Completion.

Definition succeeded (x : Exchange) : bool :=
  match snd x with Content _ => true | Failure _ => false end.

Inductive exn :=
| RuntimeError (msg : str)
| ValidationError (errors : list ErrorDetail)
| OSError (msg : str)
| HTTPException (status_code : Z) (detail : str).

Inductive result (A : Type) :=
| Return (a : A)
| Raise (e : exn).
Arguments Return {A} a.
Arguments Raise {A} e.

Module QuestionAgent.
Record t := {
  api_key : str;
  model : str;
  difficulty_levels : list str;
  question_history : list str
}.

(** [QuestionAgent.__init__] *)
Definition init (key : str) : t :=
  {| api_key := key;
     model := lit "gpt-4o-mini";
     difficulty_levels := [lit "easy"; lit "medium"; lit "hard"];
     question_history := [] |}.

(** [self.question_history.append(question)] *)
Definition append (self : t) (question : str) : t :=
  {| api_key := api_key self;
     model := model self;
     difficulty_levels := difficulty_levels self;
     question_history := question_history self ++ [question] |}.
End QuestionAgent.

Module AnswerAgent.
Record t := { api_key : str; model : str }.

(** [AnswerAgent.__init__] *)
Definition init (key : str) : t :=
  {| api_key := key; model := lit "gpt-4o-mini" |}.
End AnswerAgent.

(** The records handed to the two loggers, one constructor per logging
    call of the source, with the values its message is formatted from. *)
Inductive LogRecord :=
| info_generated_question (difficulty question : str)
| error_generating_question (e : str)
| info_generated_answer (question_head : str)
| error_generating_answer (e : str)
| info_starting_session (subject : str) (num_pairs : Z)
| info_completed_pair (number num_pairs : Z)
| error_in_iteration (number : Z) (e : exn)
| info_session_completed (count : Z)
| info_received_request (subject : str) (num_pairs : Z)
| error_api_key_not_found
| info_session_saved (filepath : str)
| error_runtime (e : str)
| error_unexpected (e : str).

(** The local variables of [run_qa_session]. *)
Record Frame := {
  question_agent : QuestionAgent.t;
  answer_agent : AnswerAgent.t;
  pairs : list PairDict.t
}.

(** What the HTTP layer sends back. *)
Inductive ResponseBody :=
| session_body (r : SessionResponse.t)
| detail_text (detail : str)
| detail_errors (errors : list ErrorDetail).

Record HttpResponse := { status : Z; body : ResponseBody }.

(** A world in which the program can be run by evaluation: the completion
    service answers from a script, one entry per call, and refuses the
    connection once the script is exhausted; the key is set, the clock
    stands still and the file system accepts every write. *)
Module Scripted.
Definition World : Type := list Completion.

Definition chat_completions_create
    (key : str) (rq : CompletionRequest) (w : World) : Completion * World :=
  match w with
  | [] => (Failure (lit "Connection error."), [])
  | c :: w' => (c, w')
  end.

Definition getenv_api_key (w : World) : option str := Some (lit "sk-test").

Definition strftime_now (w : World) : str := lit "20240101_120000".

Definition isalnum (c : char) : bool :=
  ((48 <=? c) && (c <=? 57) || (65 <=? c) && (c <=? 90)
   || (97 <=? c) && (c <=? 122))%N.

Definition write_json (path : str) (r : SessionResponse.t) (w : World)
  : option str * World := (None, w).

Definition validation_error_str (es : list ErrorDetail) : str :=
  lit "validation error".

(** An environment without the key. *)
Definition getenv_unset (w : World) : option str := None.

(** A file system that refuses every write. *)
Definition write_json_denied (path : str) (r : SessionResponse.t) (w : World)
  : option str * World := (Some (lit "Permission denied"), w).
End Scripted.

(** ** The program *)

Section Program.

(** Everything outside the process. *)
Variable World : Type.

(** [OpenAI(api_key=...).chat.completions.create(...)] followed by the
    extraction of the content of the first choice. *)
Variable chat_completions_create :
  str -> CompletionRequest -> World -> Completion * World.

(** [os.getenv("OPENAI_API_KEY")] *)
Variable getenv_api_key : World -> option str.

(** [datetime.now().strftime("%Y%m%d_%H%M%S")] *)
Variable strftime_now : World -> str.

(** [str.isalnum] for one character (the Unicode tables are Python's). *)
Variable isalnum : char -> bool.

(** Opening [filepath] for writing and dumping the response to it as
    JSON; [Some e] is [str(e)] of the exception when this fails. *)
Variable write_json : str -> SessionResponse.t -> World -> option str * World.

(** [str(e)] for a pydantic validation error. *)
Variable validation_error_str : list ErrorDetail -> str.

(** The state of a run: the world, the records logged so far and the
    exchanges had with the completion service so far, oldest first. *)
Record Machine := {
  world : World;
  records : list LogRecord;
  exchanges : list Exchange
}.

Definition logger (r : LogRecord) (m : Machine) : Machine :=
  {| world := world m;
     records := records m ++ [r];
     exchanges := exchanges m |}.

(** A call of the completion service through a client made with [key]. *)
Definition create (key : str) (rq : CompletionRequest) (m : Machine)
  : Completion * Machine :=
  let '(c, w) := chat_completions_create key rq (world m) in
  (c, {| world := w;
         records := records m;
         exchanges := exchanges m ++ [(rq, c)] |}).

(** *** QuestionAgent.generate_question *)

(** Lines 31-37: the difficulty of an iteration. *)
Definition difficulty_at (iteration total_iterations : Z) : str :=
  let progress := truediv iteration (Z.max (total_iterations - 1) 1) in
  if f64_ltb progress literal_0_33 then lit "easy"
  else if f64_ltb progress literal_0_66 then lit "medium"
  else lit "hard".

(** [self.question_history[-3:]] *)
Definition history_window (question_history : list str) : list str :=
  last_items 3 question_history.

(** Lines 40-44. *)
Definition history_context (question_history : list str) : str :=
  match question_history with
  | [] => []
  | _ :: _ =>
      lit "

Previously asked questions:
" ++ join nl (List.map (fun q => lit "- " ++ q)
              (history_window question_history))
  end.

(** Lines 46-59. *)
Definition question_prompt (difficulty subject context : str) : str :=
  lit "You are an expert educator creating " ++ difficulty
  ++ lit " level questions about " ++ subject ++ lit ".

Generate ONE clear, unambiguous question about " ++ subject ++ lit " at "
  ++ difficulty ++ lit " difficulty level.

Requirements:
- The question must be specific and answerable
- Make it different from previous questions in style and focus
- For easy: focus on definitions and basic concepts
- For medium: focus on application and understanding
- For hard: focus on analysis, synthesis, or complex scenarios
- Do not repeat similar questions
" ++ context ++ lit "

Generate only the question, no explanations or preamble.".

Definition question_request
    (self : QuestionAgent.t) (prompt : str) : CompletionRequest :=
  {| model := QuestionAgent.model self;
     messages :=
       [ {| role := lit "system";
            content := lit "You are a helpful assistant that generates educational questions." |};
         {| role := lit "user"; content := prompt |} ];
     temperature := 0.7;
     max_tokens := 200 |}.

(** The agent is returned as the call leaves it. *)
Definition generate_question
    (self : QuestionAgent.t) (subject : str)
    (iteration total_iterations : Z) (m : Machine)
  : result str * QuestionAgent.t * Machine :=
  let difficulty := difficulty_at iteration total_iterations in
  let context := history_context (QuestionAgent.question_history self) in
  let prompt := question_prompt difficulty subject context in
  let '(response, m1) :=
    create (QuestionAgent.api_key self) (question_request self prompt) m in
  match response with
  | Content text =>
      let question := strip text in
      let self' := QuestionAgent.append self question in
      (Return question, self',
       logger (info_generated_question difficulty question) m1)
  | Failure e =>
      (Raise (RuntimeError (lit "Failed to generate question: " ++ e)),
       self, logger (error_generating_question e) m1)
  end.

(** *** AnswerAgent.generate_answer *)

Definition answer_prompt (question : str) : str :=
  lit "You are a knowledgeable expert. Answer the following question concisely and accurately.

Question: " ++ question ++ lit "

Provide a clear, well-structured answer. Be informative but concise. Use examples if they help clarify the concept.

Answer:".

Definition answer_request
    (self : AnswerAgent.t) (prompt : str) : CompletionRequest :=
  {| model := AnswerAgent.model self;
     messages :=
       [ {| role := lit "system";
            content := lit "You are a knowledgeable expert who provides clear and accurate answers." |};
         {| role := lit "user"; content := prompt |} ];
     temperature := 0.5;
     max_tokens := 500 |}.

Definition generate_answer
    (self : AnswerAgent.t) (question : str) (m : Machine)
  : result str * Machine :=
  let prompt := answer_prompt question in
  let '(response, m1) :=
    create (AnswerAgent.api_key self) (answer_request self prompt) m in
  match response with
  | Content text =>
      let answer := strip text in
      (Return answer,
       logger (info_generated_answer (prefix 50 question)) m1)
  | Failure e =>
      (Raise (RuntimeError (lit "Failed to generate answer: " ++ e)),
       logger (error_generating_answer e) m1)
  end.

(** *** run_qa_session *)

Definition set_question_agent (fr : Frame) (qa : QuestionAgent.t) : Frame :=
  {| question_agent := qa;
     answer_agent := answer_agent fr;
     pairs := pairs fr |}.

(** [pairs.append(pair)] *)
Definition append_pair (fr : Frame) (pair : PairDict.t) : Frame :=
  {| question_agent := question_agent fr;
     answer_agent := answer_agent fr;
     pairs := pairs fr ++ [pair] |}.

(** Lines 162-182: the loop over the indices that are left, from the
    local variables [fr].  The local variables are returned as the loop
    leaves them, also when it is left by an exception. *)
Fixpoint for_loop (subject : str) (num_pairs : Z) (indices : list Z)
    (fr : Frame) (m : Machine) : result unit * Frame * Machine :=
  match indices with
  | [] => (Return tt, fr, m)
  | i :: rest =>
      let '(rq, qa, m1) :=
        generate_question (question_agent fr) subject i num_pairs m in
      let fr1 := set_question_agent fr qa in
      match rq with
      | Raise e => (Raise e, fr1, logger (error_in_iteration (i + 1) e) m1)
      | Return question =>
          let '(ra, m2) := generate_answer (answer_agent fr1) question m1 in
          match ra with
          | Raise e =>
              (Raise e, fr1, logger (error_in_iteration (i + 1) e) m2)
          | Return answer =>
              let pair := {| PairDict.id := i + 1;
                             PairDict.question := question;
                             PairDict.answer := answer |} in
              let fr2 := append_pair fr1 pair in
              let m3 := logger (info_completed_pair (i + 1) num_pairs) m2 in
              for_loop subject num_pairs rest fr2 m3
          end
      end
  end.

(** [run_qa_session], with its local variables as they are when it is
    left. *)
Definition run_qa_session_frame
    (subject : str) (num_pairs : Z) (api_key : str) (m : Machine)
  : result (list PairDict.t) * Frame * Machine :=
  let fr := {| question_agent := QuestionAgent.init api_key;
               answer_agent := AnswerAgent.init api_key;
               pairs := [] |} in
  let m0 := logger (info_starting_session subject num_pairs) m in
  let '(r, fr', m1) := for_loop subject num_pairs (range num_pairs) fr m0 in
  match r with
  | Raise e => (Raise e, fr', m1)
  | Return _ =>
      (Return (pairs fr'), fr',
       logger (info_session_completed (len (pairs fr'))) m1)
  end.

Definition run_qa_session
    (subject : str) (num_pairs : Z) (api_key : str) (m : Machine)
  : result (list PairDict.t) * Machine :=
  let '(r, _, m') := run_qa_session_frame subject num_pairs api_key m in
  (r, m').

(** *** app/main.py *)

(** Lines 90-94. *)
Definition build_response (subject : str) (pairs : list QAPair.t)
  : SessionResponse.t :=
  {| SessionResponse.subject := subject;
     SessionResponse.num_pairs := len pairs;
     SessionResponse.pairs := pairs |}.

(** Line 98. *)
Definition safe_subject (subject : str) : str :=
  List.map (fun c => if isalnum c then c else 95%N) subject.

(** Lines 97-100. *)
Definition session_filepath (subject timestamp : str) : str :=
  lit "qa_sessions/" ++ lit "qa_session_" ++ safe_subject subject
  ++ lit "_" ++ timestamp ++ lit ".json".

Definition unexpected (e : str) (m : Machine)
  : result SessionResponse.t * Machine :=
  (Raise (HTTPException 500 (lit "An unexpected error occurred: " ++ e)),
   logger (error_unexpected e) m).

(** Lines 86-107: what the [try] block does once the pairs are there. *)
Definition save_session (subject : str) (pairs_data : list PairDict.t)
    (m : Machine) : result SessionResponse.t * Machine :=
  match QAPair_validate_all pairs_data with
  | inl es => unexpected (validation_error_str es) m
  | inr pairs =>
      let response := build_response subject pairs in
      let filepath := session_filepath subject (strftime_now (world m)) in
      let '(failure, w) := write_json filepath response (world m) in
      let m1 := {| world := w;
                   records := records m;
                   exchanges := exchanges m |} in
      match failure with
      | Some e => unexpected e m1
      | None => (Return response, logger (info_session_saved filepath) m1)
      end
  end.

(** The endpoint function [run_session], on a validated request. *)
Definition run_session (request : SessionRequest.t) (m : Machine)
  : result SessionResponse.t * Machine :=
  let subject := SessionRequest.subject request in
  let num_pairs := SessionRequest.num_pairs request in
  let m0 := logger (info_received_request subject num_pairs) m in
  match getenv_api_key (world m0) with
  | None | Some [] =>
      (Raise (HTTPException 500
         (lit "OPENAI_API_KEY not configured. Please set it in .env file")),
       logger error_api_key_not_found m0)
  | Some api_key =>
      let '(r, m1) := run_qa_session subject num_pairs api_key m0 in
      match r with
      | Return pairs_data => save_session subject pairs_data m1
      | Raise (RuntimeError msg) =>
          (Raise (HTTPException 500 msg), logger (error_runtime msg) m1)
      | Raise (ValidationError es) => unexpected (validation_error_str es) m1
      | Raise (OSError msg) => unexpected msg m1
      | Raise (HTTPException _ detail) => unexpected detail m1
      end
  end.

(** [POST /run-session]: the body is validated against [SessionRequest]
    first; the endpoint function runs on a request that passed, and a
    body that did not is answered with status 422. *)
Definition post_run_session (b : Body) (m : Machine)
  : HttpResponse * Machine :=
  match model_validate b with
  | inl es => ({| status := 422; body := detail_errors es |}, m)
  | inr request =>
      let '(r, m') := run_session request m in
      match r with
      | Return response =>
          ({| status := 200; body := session_body response |}, m')
      | Raise (HTTPException code detail) =>
          ({| status := code; body := detail_text detail |}, m')
      | Raise (ValidationError es) =>
          ({| status := 422;
              body := detail_text (validation_error_str es) |}, m')
      | Raise _ =>
          ({| status := 500;
              body := detail_text (lit "Internal Server Error") |}, m')
      end
  end.

(** *** Notions the properties are stated with *)

(** The exchanges had between machine state [m] and a later state [m']. *)
Definition new_exchanges (m m' : Machine) : list Exchange :=
  skipn (List.length (exchanges m)) (exchanges m').

(** The records logged between [m] and a later state [m']. *)
Definition new_records (m m' : Machine) : list LogRecord :=
  skipn (List.length (records m)) (records m').

(** [a == b] on strings *)
Fixpoint str_eqb (a b : str) : bool :=
  match a, b with
  | [], [] => true
  | x :: a', y :: b' => (x =? y)%N && str_eqb a' b'
  | _, _ => false
  end.

(** The position of a difficulty in [difficulty_levels]. *)
Fixpoint index_of (d : str) (levels : list str) : option nat :=
  match levels with
  | [] => None
  | l :: rest =>
      if str_eqb d l then Some O else option_map S (index_of d rest)
  end.

Definition level (d : str) : option nat :=
  index_of d (QuestionAgent.difficulty_levels (QuestionAgent.init [])).

(** The difficulty rule read over the rationals, with 0.33 and 0.66 as
    the fractions 33/100 and 66/100 and the denominators cleared. *)
Definition difficulty_exact (iteration total_iterations : Z) : str :=
  let d := Z.max (total_iterations - 1) 1 in
  if 100 * iteration <? 33 * d then lit "easy"
  else if 100 * iteration <? 66 * d then lit "medium"
  else lit "hard".

(** The difficulty rule in the words of the specification, with the
    medium band spelled out as [0.33 <= progress < 0.66], on binary64
    numbers. *)
Definition difficulty_banded (iteration total_iterations : Z) : str :=
  let progress := truediv iteration (Z.max (total_iterations - 1) 1) in
  if f64_ltb progress literal_0_33 then lit "easy"
  else if f64_leb literal_0_33 progress && f64_ltb progress literal_0_66
       then lit "medium"
  else lit "hard".

(** The quotient the kernel's binary64 division gives for two numbers
    below 2^53, which convert to binary64 as they are. *)
Definition kernel_quotient (a b : Z) : float :=
  PrimFloat.div (PrimFloat.of_uint63 (Uint63.of_Z a))
                (PrimFloat.of_uint63 (Uint63.of_Z b)).

(** The quotient of the model is the kernel's, on a pair of numbers and
    on every index of a session of [total_iterations] pairs. *)
Definition agree_at (a b : Z) : bool :=
  PrimFloat.eqb (to_prim (truediv a b)) (kernel_quotient a b).

Definition agree_on (total_iterations : Z) : bool :=
  forallb (fun i => agree_at i (Z.max (total_iterations - 1) 1))
    (range total_iterations).

(** [a / b >= 2^x] and [a / b < 2^x], in integers. *)
Definition atleast (a b x : Z) : Prop := b * pow2 x <= a * pow2 (- x).

Definition below (a b x : Z) : Prop := a * pow2 (- x) < b * pow2 x.

(** The request [generate_question] sends for an agent in state [self]. *)
Definition question_request_of (self : QuestionAgent.t) (subject : str)
    (iteration total_iterations : Z) : CompletionRequest :=
  question_request self
    (question_prompt (difficulty_at iteration total_iterations) subject
       (history_context (QuestionAgent.question_history self))).

(** The history of the question agent among the local variables. *)
Definition history (fr : Frame) : list str :=
  QuestionAgent.question_history (question_agent fr).

(** The errors of the two generators. *)
Definition failed_question (e : str) : exn :=
  RuntimeError (lit "Failed to generate question: " ++ e).

Definition failed_answer (e : str) : exn :=
  RuntimeError (lit "Failed to generate answer: " ++ e).

(** The agent [self] with the history [h]. *)
Definition with_history (self : QuestionAgent.t) (h : list str)
  : QuestionAgent.t :=
  {| QuestionAgent.api_key := QuestionAgent.api_key self;
     QuestionAgent.model := QuestionAgent.model self;
     QuestionAgent.difficulty_levels := QuestionAgent.difficulty_levels self;
     QuestionAgent.question_history := h |}.

(** The local variables of [run_qa_session] before the loop. *)
Definition initial_frame (api_key : str) : Frame :=
  {| question_agent := QuestionAgent.init api_key;
     answer_agent := AnswerAgent.init api_key;
     pairs := [] |}.

(** The outcome of [run_qa_session] for an outcome of its loop. *)
Definition session_outcome (r : result unit) (fr : Frame)
  : result (list PairDict.t) :=
  match r with
  | Return _ => Return (pairs fr)
  | Raise e => Raise e
  end.

(** The [QAPair] made from a pair dictionary. *)
Definition qapair_of (p : PairDict.t) : QAPair.t :=
  {| QAPair.id := PairDict.id p;
     QAPair.question := PairDict.question p;
     QAPair.answer := PairDict.answer p |}.

(** The machine state after the endpoint function has logged the request. *)
Definition request_logged (request : SessionRequest.t) (m : Machine)
  : Machine :=
  logger (info_received_request (SessionRequest.subject request)
            (SessionRequest.num_pairs request)) m.

(** The session the endpoint function runs for a request, with the key
    [api_key] of the environment. *)
Definition session_of (request : SessionRequest.t) (api_key : str)
    (m : Machine) : result (list PairDict.t) * Machine :=
  run_qa_session (SessionRequest.subject request)
    (SessionRequest.num_pairs request) api_key (request_logged request m).

(** The runs of the loop of [run_qa_session], as a relation between the
    indices left, the local variables before, the exchanges had, the
    outcome and the local variables after. *)
Inductive loop_run (subject : str) (num_pairs : Z)
  : list Z -> Frame -> list Exchange -> result unit -> Frame -> Prop :=
| loop_done fr :
    loop_run subject num_pairs [] fr [] (Return tt) fr
| loop_question_fails i rest fr e :
    loop_run subject num_pairs (i :: rest) fr
      [(question_request_of (question_agent fr) subject i num_pairs,
        Failure e)]
      (Raise (RuntimeError (lit "Failed to generate question: " ++ e)))
      fr
| loop_answer_fails i rest fr text e :
    loop_run subject num_pairs (i :: rest) fr
      [(question_request_of (question_agent fr) subject i num_pairs,
        Content text);
       (answer_request (answer_agent fr) (answer_prompt (strip text)),
        Failure e)]
      (Raise (RuntimeError (lit "Failed to generate answer: " ++ e)))
      (set_question_agent fr
         (QuestionAgent.append (question_agent fr) (strip text)))
| loop_pair i rest fr text text' xs r fr' :
    loop_run subject num_pairs rest
      (append_pair
         (set_question_agent fr
            (QuestionAgent.append (question_agent fr) (strip text)))
         {| PairDict.id := i + 1;
            PairDict.question := strip text;
            PairDict.answer := strip text' |})
      xs r fr' ->
    loop_run subject num_pairs (i :: rest) fr
      ((question_request_of (question_agent fr) subject i num_pairs,
        Content text)
       :: (answer_request (answer_agent fr) (answer_prompt (strip text)),
           Content text')
       :: xs)
      r fr'.

(** ** Python built-ins *)

Lemma lstrip_split (s : str) :
  exists pre, s = pre ++ lstrip s /\ forallb isspace pre = true.
Proof.
  induction s as [|c s IH]; simpl.
  - exists []. split; reflexivity.
  - destruct (isspace c) eqn:Hc.
    + destruct IH as [pre [Heq Hpre]].
      exists (c :: pre). simpl. rewrite Hc, Hpre.
      split; [now rewrite <- Heq | reflexivity].
    + exists []. split; reflexivity.
Qed.

Lemma lstrip_head (s : str) (c : char) (r : str) :
  lstrip s = c :: r -> isspace c = false.
Proof.
  induction s as [|a s IH]; simpl; [discriminate|].
  destruct (isspace a) eqn:Ha; [exact IH|].
  intros H. injection H as -> _. exact Ha.
Qed.

Lemma lstrip_blank (s : str) :
  forallb isspace s = true -> lstrip s = [].
Proof.
  induction s as [|c s IH]; simpl; [reflexivity|].
  destruct (isspace c); simpl; [exact IH | discriminate].
Qed.

Lemma lstrip_nil_blank (s : str) :
  lstrip s = [] -> forallb isspace s = true.
Proof.
  induction s as [|c s IH]; simpl; [reflexivity|].
  destruct (isspace c); simpl; [exact IH | discriminate].
Qed.

Lemma forallb_rev {A} (f : A -> bool) (l : list A) :
  forallb f (rev l) = forallb f l.
Proof.
  induction l as [|a l IH]; simpl; [reflexivity|].
  rewrite forallb_app, IH. simpl. rewrite andb_true_r. apply andb_comm.
Qed.

Lemma rstrip_split (s : str) :
  exists post, s = rstrip s ++ post /\ forallb isspace post = true.
Proof.
  unfold rstrip. destruct (lstrip_split (rev s)) as [pre [Heq Hpre]].
  exists (rev pre). split.
  - rewrite <- rev_app_distr, <- Heq. symmetry. apply rev_involutive.
  - now rewrite forallb_rev.
Qed.

(** The stripped string is the input without a whitespace-only prefix and
    a whitespace-only suffix. *)
Lemma strip_split (s : str) :
  exists pre post,
    s = pre ++ strip s ++ post
    /\ forallb isspace pre = true /\ forallb isspace post = true.
Proof.
  destruct (lstrip_split s) as [pre [Hs Hpre]].
  destruct (rstrip_split (lstrip s)) as [post [Ht Hpost]].
  exists pre, post. unfold strip. rewrite <- Ht. auto.
Qed.

Lemma strip_blank (s : str) :
  forallb isspace s = true -> strip s = [].
Proof.
  intros H. unfold strip. rewrite (lstrip_blank s H). reflexivity.
Qed.

Lemma strip_nil_blank (s : str) :
  strip s = [] -> forallb isspace s = true.
Proof.
  intros H. destruct (strip_split s) as [pre [post [Hs [Hpre Hpost]]]].
  rewrite H in Hs. rewrite Hs. simpl. rewrite forallb_app, Hpre, Hpost.
  reflexivity.
Qed.

Lemma strip_first (s : str) (c : char) (r : str) :
  strip s = c :: r -> isspace c = false.
Proof.
  intros H. destruct (rstrip_split (lstrip s)) as [post [Ht _]].
  fold (strip s) in Ht. rewrite H in Ht.
  exact (lstrip_head s c (r ++ post) Ht).
Qed.

Lemma strip_last (s : str) (r : str) (c : char) :
  strip s = r ++ [c] -> isspace c = false.
Proof.
  intros H. apply (f_equal (@rev char)) in H.
  unfold strip, rstrip in H. rewrite rev_involutive, rev_app_distr in H.
  exact (lstrip_head _ _ _ H).
Qed.

Lemma lstrip_fixed (s : str) :
  (forall c r, s = c :: r -> isspace c = false) -> lstrip s = s.
Proof.
  destruct s as [|c r]; intros H; [reflexivity|].
  simpl. now rewrite (H c r eq_refl).
Qed.

Lemma strip_idempotent (s : str) : strip (strip s) = strip s.
Proof.
  assert (Hl : lstrip (strip s) = strip s).
  { apply lstrip_fixed. intros c r. apply strip_first. }
  unfold strip at 1. rewrite Hl. unfold rstrip.
  rewrite lstrip_fixed; [apply rev_involutive|].
  intros c r Hr. apply (strip_last s (rev r)).
  rewrite <- (rev_involutive (strip s)), Hr. reflexivity.
Qed.

Lemma range_length (n : Z) : List.length (range n) = Z.to_nat n.
Proof. unfold range. now rewrite length_map, length_seq. Qed.

Lemma range_nth (n : Z) (k : nat) :
  (k < Z.to_nat n)%nat -> nth_error (range n) k = Some (Z.of_nat k).
Proof.
  intros H. unfold range. rewrite nth_error_map.
  rewrite nth_error_seq. destruct (Nat.ltb_spec k (Z.to_nat n)); [|lia].
  reflexivity.
Qed.

Lemma range_In (n i : Z) : In i (range n) <-> 0 <= i < n.
Proof.
  unfold range. rewrite in_map_iff. split.
  - intros [k [<- Hk]]. apply in_seq in Hk. lia.
  - intros H. exists (Z.to_nat i). split; [lia|]. apply in_seq. lia.
Qed.

Lemma last_items_length {A} (k : nat) (l : list A) :
  List.length (last_items k l) = Nat.min (List.length l) k.
Proof. unfold last_items. rewrite length_skipn. lia. Qed.

Lemma last_items_suffix {A} (k : nat) (l : list A) :
  l = firstn (List.length l - k) l ++ last_items k l.
Proof. unfold last_items. symmetry. apply firstn_skipn. Qed.

(** ** The machine state only grows *)

Lemma skipn_length_app {A} (l xs : list A) :
  skipn (List.length l) (l ++ xs) = xs.
Proof. induction l as [|a l IH]; simpl; auto. Qed.

Lemma new_exchanges_app (m m' : Machine) (xs : list Exchange) :
  exchanges m' = exchanges m ++ xs -> new_exchanges m m' = xs.
Proof. unfold new_exchanges. intros ->. apply skipn_length_app. Qed.

Lemma new_records_app (m m' : Machine) (rs : list LogRecord) :
  records m' = records m ++ rs -> new_records m m' = rs.
Proof. unfold new_records. intros ->. apply skipn_length_app. Qed.

Lemma create_exchanges key rq m c m' :
  create key rq m = (c, m') ->
  exchanges m' = exchanges m ++ [(rq, c)] /\ records m' = records m.
Proof.
  unfold create. destruct (chat_completions_create key rq (world m)).
  intros H. injection H as <- <-. simpl. auto.
Qed.

Lemma set_question_agent_same (fr : Frame) :
  set_question_agent fr (question_agent fr) = fr.
Proof. destruct fr; reflexivity. Qed.

(** What one call of [generate_question] does. *)
Lemma generate_question_run self subject i n m :
  exists c rs,
    exchanges (snd (generate_question self subject i n m))
    = exchanges m ++ [(question_request_of self subject i n, c)]
    /\ records (snd (generate_question self subject i n m))
       = records m ++ rs
    /\ fst (generate_question self subject i n m)
       = match c with
         | Content text =>
             (Return (strip text), QuestionAgent.append self (strip text))
         | Failure e =>
             (Raise (RuntimeError (lit "Failed to generate question: " ++ e)),
              self)
         end.
Proof.
  unfold generate_question. fold (question_request_of self subject i n).
  destruct (create (QuestionAgent.api_key self)
              (question_request_of self subject i n) m) as [c m1] eqn:Hc.
  apply create_exchanges in Hc. destruct Hc as [Hx Hr].
  exists c. destruct c; eexists; simpl; rewrite Hx, Hr; auto.
Qed.

(** What one call of [generate_answer] does. *)
Lemma generate_answer_run self question m :
  exists c rs,
    exchanges (snd (generate_answer self question m))
    = exchanges m ++ [(answer_request self (answer_prompt question), c)]
    /\ records (snd (generate_answer self question m)) = records m ++ rs
    /\ fst (generate_answer self question m)
       = match c with
         | Content text => Return (strip text)
         | Failure e =>
             Raise (RuntimeError (lit "Failed to generate answer: " ++ e))
         end.
Proof.
  unfold generate_answer.
  destruct (create (AnswerAgent.api_key self)
              (answer_request self (answer_prompt question)) m)
    as [c m1] eqn:Hc.
  apply create_exchanges in Hc. destruct Hc as [Hx Hr].
  exists c. destruct c; eexists; simpl; rewrite Hx, Hr; auto.
Qed.

(** Every execution of the loop is a run of [loop_run]. *)
Lemma for_loop_run subject n indices :
  forall fr m r fr' m',
    for_loop subject n indices fr m = (r, fr', m') ->
    exists xs rs,
      exchanges m' = exchanges m ++ xs
      /\ records m' = records m ++ rs
      /\ loop_run subject n indices fr xs r fr'.
Proof.
  induction indices as [|i rest IH]; intros fr m r fr' m' H.
  - simpl in H. injection H as <- <- <-. exists [], [].
    rewrite !app_nil_r. repeat split. constructor.
  - simpl in H.
    destruct (generate_question_run (question_agent fr) subject i n m)
      as [c [rs [Hx [Hr Hq]]]].
    destruct (generate_question (question_agent fr) subject i n m)
      as [[rq qa] m1]. simpl in Hx, Hr, Hq.
    destruct c as [text|e]; injection Hq as -> ->.
    + destruct (generate_answer_run (answer_agent fr) (strip text) m1)
        as [c' [rs' [Hx' [Hr' Ha]]]].
      simpl in H.
      destruct (generate_answer (answer_agent fr) (strip text) m1)
        as [ra m2]. simpl in Hx', Hr', Ha.
      destruct c' as [text'|e]; subst ra.
      * apply IH in H. destruct H as [xs [rs'' [Hxs [Hrs Hrun]]]].
        exists ((question_request_of (question_agent fr) subject i n,
                 Content text)
                :: (answer_request (answer_agent fr)
                      (answer_prompt (strip text)), Content text')
                :: xs).
        eexists. split; [|split].
        -- rewrite Hxs. simpl. rewrite Hx', Hx, <- !app_assoc. reflexivity.
        -- rewrite Hrs. simpl. rewrite Hr', Hr, <- !app_assoc. reflexivity.
        -- now constructor.
      * injection H as <- <- <-. do 2 eexists. split; [|split].
        -- simpl. rewrite Hx', Hx, <- app_assoc. reflexivity.
        -- simpl. rewrite Hr', Hr, <- !app_assoc. reflexivity.
        -- constructor.
    + injection H as <- <- <-. do 2 eexists. split; [|split].
      * simpl. rewrite Hx. reflexivity.
      * simpl. rewrite Hr, <- app_assoc. reflexivity.
      * rewrite set_question_agent_same. constructor.
Qed.

(** ** Runs of the loop *)

(** The shape of every run: the pairs appended are numbered after the
    indices consumed, a run that returns had only successful exchanges,
    and a run that raises ends with the one failed exchange. *)
Lemma loop_run_inv subject n indices fr xs r fr' :
  loop_run subject n indices fr xs r fr' ->
  exists ps,
    pairs fr' = pairs fr ++ ps
    /\ List.map PairDict.id ps
       = List.map (fun i => i + 1) (firstn (List.length ps) indices)
    /\ answer_agent fr' = answer_agent fr
    /\ match r with
       | Return _ =>
           forallb succeeded xs = true
           /\ List.length ps = List.length indices
           /\ List.length xs = (2 * List.length indices)%nat
           /\ history fr' = history fr ++ List.map PairDict.question ps
       | Raise ex =>
           exists oks rq e,
             xs = oks ++ [(rq, Failure e)]
             /\ forallb succeeded oks = true
             /\ (List.length ps < List.length indices)%nat
             /\ ((List.length oks = (2 * List.length ps)%nat
                  /\ ex = failed_question e
                  /\ history fr'
                     = history fr ++ List.map PairDict.question ps
                  /\ rq = question_request_of (question_agent fr') subject
                            (nth (List.length ps) indices 0) n)
                 \/ (List.length oks = (2 * List.length ps + 1)%nat
                     /\ ex = failed_answer e
                     /\ exists q,
                          history fr'
                          = (history fr ++ List.map PairDict.question ps)
                            ++ [q]
                          /\ rq = answer_request (answer_agent fr)
                                    (answer_prompt q)))
       end.
Proof.
  induction 1 as [fr | i rest fr e | i rest fr text e
                 | i rest fr text text' xs r fr' Hrun IH].
  - exists []. rewrite app_nil_r. simpl. rewrite app_nil_r.
    repeat split.
  - exists []. rewrite app_nil_r. simpl. repeat split.
    exists [], (question_request_of (question_agent fr) subject i n), e.
    simpl. repeat split; [lia|]. left. rewrite app_nil_r. auto.
  - exists []. simpl. rewrite app_nil_r. repeat split.
    exists [(question_request_of (question_agent fr) subject i n,
             Content text)],
      (answer_request (answer_agent fr) (answer_prompt (strip text))), e.
    simpl. repeat split; [lia|]. right. repeat split.
    exists (strip text). unfold history. simpl. rewrite app_nil_r. auto.
  - destruct IH as [ps [Hp [Hid [Haa Hr]]]].
    exists ({| PairDict.id := i + 1;
               PairDict.question := strip text;
               PairDict.answer := strip text' |} :: ps).
    simpl in Hp, Haa. split; [|split; [|split]].
    + rewrite Hp, <- app_assoc. reflexivity.
    + simpl. now rewrite Hid.
    + exact Haa.
    + destruct r as [u|ex].
      * destruct Hr as [Hs [Hl [Hlx Hh]]]. simpl. repeat split; try lia.
        -- exact Hs.
        -- rewrite Hh. unfold history. simpl. now rewrite <- app_assoc.
      * destruct Hr as [oks [rq [e [Hxs [Hs [Hl Hcase]]]]]].
        exists ((question_request_of (question_agent fr) subject i n,
                 Content text)
                :: (answer_request (answer_agent fr)
                      (answer_prompt (strip text)), Content text')
                :: oks), rq, e.
        simpl. split; [now rewrite Hxs|]. split; [exact Hs|].
        split; [lia|].
        destruct Hcase as [[Hlo [He [Hh Hrq]]] | [Hlo [He [q [Hh Hrq]]]]].
        -- left. repeat split; try lia; auto.
           rewrite Hh. unfold history. simpl. now rewrite <- app_assoc.
        -- right. repeat split; try lia; auto.
           exists q. split; [|exact Hrq].
           rewrite Hh. unfold history. simpl.
           now rewrite <- !app_assoc.
Qed.

Lemma with_history_same (self : QuestionAgent.t) :
  with_history self (QuestionAgent.question_history self) = self.
Proof. destruct self; reflexivity. Qed.

Lemma with_history_append (self : QuestionAgent.t) (q : str) (h : list str) :
  with_history (QuestionAgent.append self q) h = with_history self h.
Proof. reflexivity. Qed.

Lemma loop_run_history subject n indices fr xs r fr' :
  loop_run subject n indices fr xs r fr' ->
  exists hs, history fr' = history fr ++ hs.
Proof.
  intros H. destruct (loop_run_inv _ _ _ _ _ _ _ H) as [ps [_ [_ [_ Hr]]]].
  destruct r as [u|ex].
  - destruct Hr as [_ [_ [_ Hh]]]. eauto.
  - destruct Hr as [oks [rq [e [_ [_ [_ [[_ [_ [Hh _]]]|[_ [_ [q [Hh _]]]]]]]]]]].
    + eauto.
    + rewrite <- app_assoc in Hh. eauto.
Qed.

Lemma firstn_length_app {A} (l xs : list A) :
  firstn (List.length l) (l ++ xs) = l.
Proof. induction l as [|a l IH]; simpl; [now destruct xs | now rewrite IH]. Qed.

Lemma nth_length_app {A} (l xs : list A) (x d : A) :
  nth (List.length l) (l ++ x :: xs) d = x.
Proof. induction l as [|a l IH]; simpl; auto. Qed.

(** The requests of a run, position by position: the exchanges alternate
    between a question request, built from the history as it is then, and
    the answer request for the question just generated. *)
Lemma loop_run_requests subject n indices fr xs r fr' :
  loop_run subject n indices fr xs r fr' ->
  forall j : nat,
    ((2 * j < List.length xs)%nat ->
     exists c,
       nth_error xs (2 * j)
       = Some (question_request_of
                 (with_history (question_agent fr)
                    (firstn (List.length (history fr) + j) (history fr')))
                 subject (nth j indices 0) n, c))
    /\ ((2 * j + 1 < List.length xs)%nat ->
        exists c,
          nth_error xs (2 * j + 1)
          = Some (answer_request (answer_agent fr)
                    (answer_prompt
                       (nth (List.length (history fr) + j) (history fr') [])),
                  c)).
Proof.
  induction 1 as [fr | i rest fr e | i rest fr text e
                 | i rest fr text text' xs r fr' Hrun IH]; intros j.
  - simpl. split; intros; lia.
  - simpl. split; [|intros; lia]. intros Hj.
    assert (j = O) by lia. subst j. simpl. rewrite Nat.add_0_r.
    unfold history. rewrite firstn_all, with_history_same. eauto.
  - simpl List.length. split; intros Hj; assert (j = O) by lia; subst j;
      simpl; rewrite Nat.add_0_r; unfold history; simpl.
    + rewrite firstn_length_app, with_history_same. eauto.
    + rewrite nth_length_app. eauto.
  - destruct (loop_run_history _ _ _ _ _ _ _ Hrun) as [hs Hh].
    set (fr2 := append_pair _ _) in Hrun, IH, Hh |- *.
    assert (Hh2 : history fr2 = history fr ++ [strip text]) by reflexivity.
    assert (Hq2 : question_agent fr2
                  = QuestionAgent.append (question_agent fr) (strip text))
      by reflexivity.
    assert (Ha2 : answer_agent fr2 = answer_agent fr) by reflexivity.
    rewrite Hh2, <- app_assoc in Hh. simpl in Hh.
    destruct j as [|j].
    + simpl. rewrite Nat.add_0_r, Hh.
      rewrite firstn_length_app, nth_length_app.
      unfold history. rewrite with_history_same.
      split; eauto.
    + specialize (IH j). simpl List.length.
      replace (2 * S j)%nat with (S (S (2 * j))) by lia.
      replace (S (S (2 * j)) + 1)%nat with (S (S (2 * j + 1))) by lia.
      simpl nth_error. simpl nth.
      rewrite Hh2, Hq2, Ha2, with_history_append, length_app in IH.
      simpl List.length in IH.
      replace (List.length (history fr) + 1 + j)%nat
        with (List.length (history fr) + S j)%nat in IH by lia.
      destruct IH as [IHq IHa].
      split; intros Hj; [apply IHq | apply IHa]; lia.
Qed.

(** ** Sessions *)

Lemma run_qa_session_frame_run subject n api_key m :
  exists xs rs r0,
    exchanges (snd (run_qa_session_frame subject n api_key m))
    = exchanges m ++ xs
    /\ records (snd (run_qa_session_frame subject n api_key m))
       = records m ++ info_starting_session subject n :: rs
    /\ loop_run subject n (range n) (initial_frame api_key) xs r0
         (snd (fst (run_qa_session_frame subject n api_key m)))
    /\ fst (fst (run_qa_session_frame subject n api_key m))
       = session_outcome r0
           (snd (fst (run_qa_session_frame subject n api_key m))).
Proof.
  unfold run_qa_session_frame. fold (initial_frame api_key).
  destruct (for_loop subject n (range n) (initial_frame api_key)
              (logger (info_starting_session subject n) m))
    as [[r fr'] m1] eqn:Hloop.
  apply for_loop_run in Hloop. destruct Hloop as [xs [rs [Hx [Hr Hrun]]]].
  simpl in Hx, Hr. rewrite <- app_assoc in Hr. simpl in Hr.
  exists xs. destruct r as [u|e]; simpl.
  - exists (rs ++ [info_session_completed (len (pairs fr'))]), (Return u).
    rewrite Hx, Hr, <- app_assoc. simpl. auto.
  - exists rs, (Raise e). auto.
Qed.

Lemma run_qa_session_frame_eq subject n api_key m :
  run_qa_session subject n api_key m
  = (fst (fst (run_qa_session_frame subject n api_key m)),
     snd (run_qa_session_frame subject n api_key m)).
Proof.
  unfold run_qa_session.
  destruct (run_qa_session_frame subject n api_key m) as [[r fr] m'].
  reflexivity.
Qed.

Lemma forallb_failure (oks : list Exchange) rq e :
  forallb succeeded (oks ++ [(rq, Failure e)]) = false.
Proof. rewrite forallb_app. simpl. apply andb_false_r. Qed.


(** A session all of whose exchanges succeed returns the pairs numbered
    1, 2, ..., [n], and the agent has one history entry per pair. *)
Lemma session_success subject n api_key m :
  0 <= n ->
  forallb succeeded
    (new_exchanges m (snd (run_qa_session_frame subject n api_key m)))
  = true ->
  exists pairs_data,
    fst (fst (run_qa_session_frame subject n api_key m)) = Return pairs_data
    /\ pairs (snd (fst (run_qa_session_frame subject n api_key m)))
       = pairs_data
    /\ len pairs_data = n
    /\ List.map PairDict.id pairs_data
       = List.map (fun i => i + 1) (range n)
    /\ history (snd (fst (run_qa_session_frame subject n api_key m)))
       = List.map PairDict.question pairs_data
    /\ List.length
         (new_exchanges m (snd (run_qa_session_frame subject n api_key m)))
       = (2 * Z.to_nat n)%nat.
Proof.
  intros Hn Hok.
  destruct (run_qa_session_frame_run subject n api_key m)
    as [xs [rs [r0 [Hx [_ [Hrun Hout]]]]]].
  rewrite (new_exchanges_app _ _ _ Hx) in Hok |- *.
  destruct (loop_run_inv _ _ _ _ _ _ _ Hrun) as [ps [Hp [Hid [_ Hr]]]].
  simpl in Hp. destruct r0 as [u|ex].
  - destruct Hr as [_ [Hl [Hlx Hh]]]. rewrite range_length in Hl, Hlx.
    exists ps. rewrite Hout. simpl. rewrite Hp.
    split; [reflexivity|]. split; [reflexivity|].
    split; [unfold len; rewrite Hl; lia|].
    split; [|split; [exact Hh | exact Hlx]].
    rewrite Hid, Hl, <- (range_length n), firstn_all. reflexivity.
  - destruct Hr as [oks [rq [e [Hxs _]]]]. subst xs.
    rewrite forallb_failure in Hok. discriminate.
Qed.

(** A session that returns had only successful exchanges. *)
Lemma session_return subject n api_key m pairs_data :
  fst (fst (run_qa_session_frame subject n api_key m)) = Return pairs_data ->
  forallb succeeded
    (new_exchanges m (snd (run_qa_session_frame subject n api_key m)))
  = true.
Proof.
  intros Hret.
  destruct (run_qa_session_frame_run subject n api_key m)
    as [xs [rs [r0 [Hx [_ [Hrun Hout]]]]]].
  rewrite (new_exchanges_app _ _ _ Hx).
  destruct (loop_run_inv _ _ _ _ _ _ _ Hrun) as [ps [_ [_ [_ Hr]]]].
  rewrite Hout in Hret. destruct r0 as [u|ex]; [|discriminate].
  tauto.
Qed.

Lemma QAPair_validate_all_ok (ps : list PairDict.t) :
  Forall (fun i => 1 <= i) (List.map PairDict.id ps) ->
  QAPair_validate_all ps = inr (List.map qapair_of ps).
Proof.
  induction ps as [|p ps IH]; simpl; intros H; [reflexivity|].
  inversion H as [|? ? Hp Hps]; subst.
  unfold QAPair_validate. destruct (Z.ltb_spec (PairDict.id p) 1); [lia|].
  rewrite (IH Hps). reflexivity.
Qed.



(** ** C1 *)


(** ** Failing sessions *)

Lemma firstn_seq_le (k len start : nat) :
  (k <= len)%nat -> firstn k (seq start len) = seq start k.
Proof.
  revert len start. induction k as [|k IH]; intros len start H.
  - reflexivity.
  - destruct len as [|len]; [lia|]. simpl. rewrite IH by lia. reflexivity.
Qed.

Lemma firstn_range (k : nat) (n : Z) :
  (k <= Z.to_nat n)%nat -> firstn k (range n) = range (Z.of_nat k).
Proof.
  intros H. unfold range. rewrite firstn_map, firstn_seq_le by exact H.
  now rewrite Nat2Z.id.
Qed.

(** The loop changes nothing of the question agent but its history. *)
Lemma loop_run_agent subject n indices fr xs r fr' :
  loop_run subject n indices fr xs r fr' ->
  question_agent fr' = with_history (question_agent fr) (history fr').
Proof.
  induction 1 as [fr | i rest fr e | i rest fr text e
                 | i rest fr text text' xs r fr' Hrun IH].
  - symmetry. apply with_history_same.
  - symmetry. apply with_history_same.
  - reflexivity.
  - rewrite IH. reflexivity.
Qed.

Lemma nth_range (k : nat) (n : Z) :
  (k < Z.to_nat n)%nat -> nth k (range n) 0 = Z.of_nat k.
Proof. intros H. apply nth_error_nth, range_nth, H. Qed.

(** A session with a failed exchange: the failed exchange is the last
    one and the only one, the session raises the error of the generator
    that failed, and the pairs made before are left in the local
    variables. *)
Lemma session_failure subject n api_key m :
  forallb succeeded
    (new_exchanges m (snd (run_qa_session_frame subject n api_key m)))
  = false ->
  exists ps oks rq msg,
    new_exchanges m (snd (run_qa_session_frame subject n api_key m))
    = oks ++ [(rq, Failure msg)]
    /\ forallb succeeded oks = true
    /\ pairs (snd (fst (run_qa_session_frame subject n api_key m))) = ps
    /\ 0 <= len ps < n
    /\ List.map PairDict.id ps
       = List.map (fun i => i + 1) (range (len ps))
    /\ ((List.length oks = (2 * List.length ps)%nat
         /\ fst (fst (run_qa_session_frame subject n api_key m))
            = Raise (failed_question msg)
         /\ history (snd (fst (run_qa_session_frame subject n api_key m)))
            = List.map PairDict.question ps
         /\ rq = question_request_of
                   (with_history (QuestionAgent.init api_key)
                      (List.map PairDict.question ps))
                   subject (len ps) n)
        \/ (List.length oks = (2 * List.length ps + 1)%nat
            /\ fst (fst (run_qa_session_frame subject n api_key m))
               = Raise (failed_answer msg)
            /\ exists q,
                 history (snd (fst (run_qa_session_frame subject n api_key m)))
                 = List.map PairDict.question ps ++ [q]
                 /\ rq = answer_request (AnswerAgent.init api_key)
                           (answer_prompt q))).
Proof.
  intros Hbad.
  destruct (run_qa_session_frame_run subject n api_key m)
    as [xs [rs [r0 [Hx [_ [Hrun Hout]]]]]].
  rewrite (new_exchanges_app _ _ _ Hx) in Hbad |- *.
  destruct (loop_run_inv _ _ _ _ _ _ _ Hrun) as [ps [Hp [Hid [_ Hr]]]].
  simpl in Hp. destruct r0 as [u|ex].
  - destruct Hr as [Hall _]. congruence.
  - destruct Hr as [oks [rq [e [Hxs [Hoks [Hl Hcase]]]]]].
    rewrite range_length in Hl.
    exists ps, oks, rq, e. rewrite Hout. simpl.
    split; [exact Hxs|]. split; [exact Hoks|]. split; [exact Hp|].
    split; [unfold len; lia|].
    split; [rewrite Hid, firstn_range by lia; reflexivity|].
    destruct Hcase as [[Hlo [-> [Hh Hrq]]] | [Hlo [-> [q [Hh Hrq]]]]].
    + left. repeat split; auto.
      rewrite Hrq, nth_range by lia.
      rewrite (loop_run_agent _ _ _ _ _ _ _ Hrun), Hh. reflexivity.
    + right. repeat split; auto. exists q. auto.
Qed.

(** What the generators raise when the service fails with [msg]. *)
Lemma generate_question_raises self subject i n m msg :
  fst (create (QuestionAgent.api_key self)
         (question_request_of self subject i n) m) = Failure msg ->
  fst (fst (generate_question self subject i n m))
  = Raise (failed_question msg).
Proof.
  unfold generate_question. fold (question_request_of self subject i n).
  destruct (create _ _ m) as [c m1]. simpl. intros ->. reflexivity.
Qed.

Lemma generate_answer_raises self question m msg :
  fst (create (AnswerAgent.api_key self)
         (answer_request self (answer_prompt question)) m) = Failure msg ->
  fst (generate_answer self question m) = Raise (failed_answer msg).
Proof.
  unfold generate_answer.
  destruct (create _ _ m) as [c m1]. simpl. intros ->. reflexivity.
Qed.

(** ** C3 *)

(** C3: when a question or answer generation of a session fails, the
    failed exchange is the last of the session (nothing is retried and
    no later iteration starts), all exchanges before it succeeded, it
    belongs to an iteration [k] below [N] (a question is exchange [2k], an
    answer exchange [2k+1]), [run_qa_session] raises exactly the error the
    failing generator raises for that failure, so it returns no pairs,
    and the [k] pairs of the earlier iterations stay behind in its local
    variables. *)
Theorem failed_session_aborts :
  forall (subject : str) (N : Z) (api_key : str) (m : Machine),
    forallb succeeded
      (new_exchanges m (snd (run_qa_session subject N api_key m))) = false ->
    exists (k : Z) (oks : list Exchange) (rq : CompletionRequest)
           (msg : str) (e : exn),
      0 <= k < N
      /\ new_exchanges m (snd (run_qa_session subject N api_key m))
         = oks ++ [(rq, Failure msg)]
      /\ forallb succeeded oks = true
      /\ fst (run_qa_session subject N api_key m) = Raise e
      /\ len (pairs (snd (fst (run_qa_session_frame subject N api_key m))))
         = k
      /\ ((len oks = 2 * k
           /\ e = failed_question msg
           /\ forall self s i n m0,
                fst (create (QuestionAgent.api_key self)
                       (question_request_of self s i n) m0) = Failure msg ->
                fst (fst (generate_question self s i n m0)) = Raise e)
          \/ (len oks = 2 * k + 1
              /\ e = failed_answer msg
              /\ forall self q m0,
                   fst (create (AnswerAgent.api_key self)
                          (answer_request self (answer_prompt q)) m0)
                   = Failure msg ->
                   fst (generate_answer self q m0) = Raise e)).
Proof.
  intros subject N api_key m Hbad.
  rewrite run_qa_session_frame_eq in Hbad |- *. cbn [fst snd] in Hbad |- *.
  destruct (session_failure subject N api_key m Hbad)
    as [ps [oks [rq [msg [Hxs [Hoks [Hp [Hk [_ Hcase]]]]]]]]].
  exists (len ps), oks, rq, msg.
  destruct Hcase as [[Hlo [Hr _]] | [Hlo [Hr _]]].
  - exists (failed_question msg). rewrite Hp.
    split; [exact Hk|]. split; [exact Hxs|]. split; [exact Hoks|].
    split; [exact Hr|]. split; [reflexivity|]. left. unfold len, Exchange in Hk, Hlo |- *.
    split; [lia|]. split; [reflexivity|].
    intros. now apply generate_question_raises.
  - exists (failed_answer msg). rewrite Hp.
    split; [exact Hk|]. split; [exact Hxs|]. split; [exact Hoks|].
    split; [exact Hr|]. split; [reflexivity|]. right. unfold len, Exchange in Hk, Hlo |- *.
    split; [lia|]. split; [reflexivity|].
    intros. now apply generate_answer_raises.
Qed.

(** ** C5 *)

Lemma answer_request_inj self q q' :
  answer_request self (answer_prompt q)
  = answer_request self (answer_prompt q') -> q = q'.
Proof.
  unfold answer_request, answer_prompt. intros H. injection H as H.
  now apply app_inv_tail in H.
Qed.

(** The two roles never send the same request. *)
Lemma question_request_not_answer self prompt self' prompt' :
  question_request self prompt <> answer_request self' prompt'.
Proof.
  intros H. apply (f_equal max_tokens) in H. discriminate.
Qed.

(** C5: a call of [generate_question] that returns a question [q] got
    some text from the service, [q] is that text stripped, and the call
    leaves the agent with [q] appended to its history, so that [q] is the
    last entry; and when the answer generation for a question [q] fails
    in a session, the history left behind ends with [q], after the
    questions of the pairs made so far, while the session raises and
    there is no pair for [q]. *)
Theorem question_recorded_before_answer :
  (forall (self : QuestionAgent.t) (subject : str) (i N : Z) (m : Machine)
          (q : str),
      fst (fst (generate_question self subject i N m)) = Return q ->
      QuestionAgent.question_history
        (snd (fst (generate_question self subject i N m)))
      = QuestionAgent.question_history self ++ [q]
      /\ last (QuestionAgent.question_history
                 (snd (fst (generate_question self subject i N m)))) []
         = q
      /\ exists text,
           new_exchanges m (snd (generate_question self subject i N m))
           = [(question_request_of self subject i N, Content text)]
           /\ q = strip text)
  /\ (forall (subject : str) (N : Z) (api_key : str) (m : Machine)
             (oks : list Exchange) (q msg : str),
         new_exchanges m (snd (run_qa_session_frame subject N api_key m))
         = oks ++ [(answer_request (AnswerAgent.init api_key)
                      (answer_prompt q), Failure msg)] ->
         history (snd (fst (run_qa_session_frame subject N api_key m)))
         = List.map PairDict.question
             (pairs (snd (fst (run_qa_session_frame subject N api_key m))))
           ++ [q]
         /\ fst (run_qa_session subject N api_key m)
            = Raise (failed_answer msg)
         /\ (List.length oks
             = 2 * List.length
                     (pairs (snd (fst (run_qa_session_frame
                                         subject N api_key m))))
               + 1)%nat).
Proof.
  split.
  - intros self subject i N m q Hq.
    destruct (generate_question_run self subject i N m)
      as [c [rs [Hx [_ Hr]]]].
    rewrite (new_exchanges_app _ _ _ Hx).
    destruct c as [text|e].
    + rewrite (surjective_pairing (fst (generate_question self subject i N m)))
        in Hr.
      injection Hr as Hr1 Hr2. rewrite Hr1 in Hq. injection Hq as <-.
      rewrite Hr2. simpl. rewrite last_last. eauto.
    + rewrite (surjective_pairing (fst (generate_question self subject i N m)))
        in Hr.
      injection Hr as Hr1 Hr2. rewrite Hr1 in Hq. discriminate.
  - intros subject N api_key m oks q msg Hxs.
    rewrite run_qa_session_frame_eq. cbn [fst snd].
    assert (Hbad : forallb succeeded
                     (new_exchanges m
                        (snd (run_qa_session_frame subject N api_key m)))
                   = false)
      by (rewrite Hxs; apply forallb_failure).
    destruct (session_failure subject N api_key m Hbad)
      as [ps [oks' [rq [msg' [Hxs' [_ [Hp [_ [_ Hcase]]]]]]]]].
    rewrite Hxs in Hxs'. apply app_inj_tail in Hxs'.
    destruct Hxs' as [<- Hlast]. injection Hlast as <- <-.
    rewrite Hp.
    destruct Hcase as [[_ [_ [_ Hrq]]] | [Hlo [Hr [q' [Hh Hrq]]]]].
    + symmetry in Hrq. now apply question_request_not_answer in Hrq.
    + apply answer_request_inj in Hrq. subst q'. auto.
Qed.

(** ** C4 *)

(** An exchange at position [2i] belongs to an iteration the loop
    reached, and by then the history has grown by [i] entries at least. *)
Lemma loop_run_bounds subject n indices fr xs r fr' :
  loop_run subject n indices fr xs r fr' ->
  forall i : nat,
    (2 * i < List.length xs)%nat ->
    (i < List.length indices)%nat
    /\ (List.length (history fr) + i <= List.length (history fr'))%nat.
Proof.
  intros Hrun i Hi.
  destruct (loop_run_inv _ _ _ _ _ _ _ Hrun) as [ps [_ [_ [_ Hr]]]].
  destruct r as [u|ex].
  - destruct Hr as [_ [Hl [Hlx Hh]]].
    rewrite Hh, length_app, length_map. lia.
  - destruct Hr as [oks [rq [e [Hxs [_ [Hl Hcase]]]]]].
    subst xs. rewrite length_app in Hi. simpl in Hi.
    destruct Hcase as [[Hlo [_ [Hh _]]] | [Hlo [_ [q [Hh _]]]]];
      rewrite Hh, ?length_app, length_map; simpl; lia.
Qed.

(** [sep.join] puts the separator before every part but the first. *)
Lemma join_cons (sep p : str) (rest : list str) :
  join sep (p :: rest)
  = p ++ List.concat (List.map (fun x => sep ++ x) rest).
Proof.
  revert p. induction rest as [|x rest IH]; intros p.
  - simpl. now rewrite app_nil_r.
  - change (join sep (p :: x :: rest)) with (p ++ sep ++ join sep (x :: rest)).
    rewrite IH. simpl. now rewrite <- app_assoc.
Qed.

(** The context of a prompt, written out: nothing for an empty history,
    else the heading and one line for each entry of the window. *)
Lemma history_context_listing (h : list str) :
  history_context h
  = match history_window h with
    | [] => []
    | q :: rest =>
        nl ++ nl ++ lit "Previously asked questions:" ++ nl
        ++ lit "- " ++ q
        ++ List.concat (List.map (fun q' => nl ++ lit "- " ++ q') rest)
    end.
Proof.
  pose proof (last_items_length 3 h) as Hlen.
  unfold history_context. fold (history_window h) in Hlen.
  destruct h as [|q0 h0].
  - reflexivity.
  - destruct (history_window (q0 :: h0)) as [|q rest] eqn:Hw.
    + simpl in Hlen. lia.
    + cbn [List.map]. rewrite join_cons, List.map_map.
      change (lit "

Previously asked questions:
") with (nl ++ nl ++ lit "Previously asked questions:" ++ nl).
      rewrite <- !app_assoc. reflexivity.
Qed.

(** C4: the window read from a history has [min (length h) 3] entries,
    never more than 3, and they are the last entries of the history; the
    context put in a prompt is empty for an empty window and else the
    heading followed by one line for each entry of the window, and
    nothing else of the history.  In every session, the request sent at
    iteration [i] (the exchange at position [2i], which is there when all
    iterations before succeeded) is the question request whose prompt
    lists the window [w] of the first [i] questions of the session: [w]
    has exactly [min i 3] entries, the last of those [i] questions.  And
    the history itself keeps every question: after a session of [N]
    successful iterations it has [N] entries. *)
Theorem history_window_bounded :
  (forall h : list str,
      List.length (history_window h) = Nat.min (List.length h) 3
      /\ (List.length (history_window h) <= 3)%nat
      /\ (exists older, h = older ++ history_window h)
      /\ history_context h
         = match history_window h with
           | [] => []
           | q :: rest =>
               nl ++ nl ++ lit "Previously asked questions:" ++ nl
               ++ lit "- " ++ q
               ++ List.concat (List.map (fun q' => nl ++ lit "- " ++ q') rest)
           end)
  /\ (forall (subject : str) (N : Z) (api_key : str) (m : Machine)
             (i : nat),
         (2 * i
          < List.length
              (new_exchanges m
                 (snd (run_qa_session_frame subject N api_key m))))%nat ->
         exists (h w : list str) (c : Completion),
           h = firstn i
                 (history
                    (snd (fst (run_qa_session_frame subject N api_key m))))
           /\ List.length h = i
           /\ w = skipn (i - 3) h
           /\ List.length w = Nat.min i 3
           /\ nth_error
                (new_exchanges m
                   (snd (run_qa_session_frame subject N api_key m)))
                (2 * i)
              = Some
                  ({| model := lit "gpt-4o-mini";
                      messages :=
                        [ {| role := lit "system";
                             content := lit "You are a helpful assistant that generates educational questions." |};
                          {| role := lit "user";
                             content :=
                               lit "You are an expert educator creating "
                               ++ difficulty_at (Z.of_nat i) N
                               ++ lit " level questions about " ++ subject
                               ++ lit ".

Generate ONE clear, unambiguous question about " ++ subject ++ lit " at "
                               ++ difficulty_at (Z.of_nat i) N
                               ++ lit " difficulty level.

Requirements:
- The question must be specific and answerable
- Make it different from previous questions in style and focus
- For easy: focus on definitions and basic concepts
- For medium: focus on application and understanding
- For hard: focus on analysis, synthesis, or complex scenarios
- Do not repeat similar questions
" ++ match w with
     | [] => []
     | q :: rest =>
         nl ++ nl ++ lit "Previously asked questions:" ++ nl
         ++ lit "- " ++ q
         ++ List.concat (List.map (fun q' => nl ++ lit "- " ++ q') rest)
     end ++ lit "

Generate only the question, no explanations or preamble." |} ];
                      temperature := 0.7;
                      max_tokens := 200 |}, c))
  /\ (forall (subject : str) (N : Z) (api_key : str) (m : Machine),
         0 <= N ->
         forallb succeeded
           (new_exchanges m
              (snd (run_qa_session_frame subject N api_key m))) = true ->
         len (history
                (snd (fst (run_qa_session_frame subject N api_key m))))
         = N).
Proof.
  split; [|split].
  - intros h. split; [|split; [|split]].
    + unfold history_window. now rewrite last_items_length.
    + unfold history_window. rewrite last_items_length. lia.
    + eexists. unfold history_window. apply (last_items_suffix 3 h).
    + apply history_context_listing.
  - intros subject N api_key m i Hi.
    destruct (run_qa_session_frame_run subject N api_key m)
      as [xs [rs [r0 [Hx [_ [Hrun _]]]]]].
    rewrite (new_exchanges_app _ _ _ Hx) in Hi |- *.
    destruct (loop_run_bounds _ _ _ _ _ _ _ Hrun i Hi) as [Hlt Hlen].
    destruct (proj1 (loop_run_requests _ _ _ _ _ _ _ Hrun i) Hi) as [c Hc].
    rewrite range_length in Hlt. simpl in Hlen, Hc.
    rewrite nth_range in Hc by exact Hlt.
    set (h := firstn i _) in Hc |- *.
    assert (Hh : List.length h = i)
      by (unfold h; rewrite length_firstn; lia).
    assert (Hw : history_window h = skipn (i - 3) h)
      by (unfold history_window, last_items; now rewrite Hh).
    exists h, (skipn (i - 3) h), c.
    split; [reflexivity|]. split; [exact Hh|]. split; [reflexivity|].
    split.
    + rewrite <- Hw. unfold history_window.
      now rewrite last_items_length, Hh.
    + refine (eq_trans Hc _). unfold question_request_of.
      cbn [QuestionAgent.question_history with_history].
      rewrite history_context_listing, Hw. reflexivity.
  - intros subject N api_key m HN Hok.
    destruct (session_success subject N api_key m HN Hok)
      as [ps [_ [_ [Hlen [_ [Hh _]]]]]].
    rewrite Hh. unfold len in Hlen |- *. now rewrite length_map.
Qed.

(** ** C8 *)

Lemma temperatures_differ : 0.7%float <> 0.5%float.
Proof.
  intros H. apply (f_equal (fun x => PrimFloat.ltb 0.5 x)) in H.
  vm_compute in H. discriminate.
Qed.

(** C8: a call of [generate_question] has exactly one exchange with the
    service, a question request, and a call of [generate_answer] exactly
    one, an answer request; every question request has temperature 0.7
    and at most 200 tokens, every answer request temperature 0.5 and at
    most 500 tokens, the two configurations differ and no request is
    both; and in a session the exchanges at even positions are question
    requests and those at odd positions answer requests. *)
Theorem generation_configurations :
  (forall self prompt,
      temperature (question_request self prompt) = 0.7%float
      /\ max_tokens (question_request self prompt) = 200)
  /\ (forall self prompt,
         temperature (answer_request self prompt) = 0.5%float
         /\ max_tokens (answer_request self prompt) = 500)
  /\ (0.7%float <> 0.5%float /\ 200 <> 500
      /\ forall self prompt self' prompt',
           question_request self prompt <> answer_request self' prompt')
  /\ (forall self subject i N m,
         exists prompt c,
           new_exchanges m (snd (generate_question self subject i N m))
           = [(question_request self prompt, c)])
  /\ (forall self question m,
         exists prompt c,
           new_exchanges m (snd (generate_answer self question m))
           = [(answer_request self prompt, c)])
  /\ (forall subject N api_key m (j : nat) rq c,
         nth_error
           (new_exchanges m (snd (run_qa_session subject N api_key m))) j
         = Some (rq, c) ->
         (Nat.even j = true
          /\ exists self prompt, rq = question_request self prompt)
         \/ (Nat.even j = false
             /\ exists self prompt, rq = answer_request self prompt)).
Proof.
  split; [|split; [|split; [|split; [|split]]]].
  - intros. split; reflexivity.
  - intros. split; reflexivity.
  - split; [exact temperatures_differ|]. split; [discriminate|].
    exact question_request_not_answer.
  - intros self subject i N m.
    destruct (generate_question_run self subject i N m)
      as [c [rs [Hx _]]].
    rewrite (new_exchanges_app _ _ _ Hx). unfold question_request_of.
    eauto.
  - intros self question m.
    destruct (generate_answer_run self question m) as [c [rs [Hx _]]].
    rewrite (new_exchanges_app _ _ _ Hx). eauto.
  - intros subject N api_key m j rq c Hj.
    rewrite run_qa_session_frame_eq in Hj. cbn [fst snd] in Hj.
    destruct (run_qa_session_frame_run subject N api_key m)
      as [xs [rs [r0 [Hx [_ [Hrun _]]]]]].
    rewrite (new_exchanges_app _ _ _ Hx) in Hj.
    assert (Hlt : (j < List.length xs)%nat)
      by (apply nth_error_Some; congruence).
    destruct (Nat.Even_or_Odd j) as [[i ->]|[i ->]].
    + left. split; [apply Nat.even_even|].
      destruct (proj1 (loop_run_requests _ _ _ _ _ _ _ Hrun i) Hlt)
        as [c' Hc].
      rewrite Hc in Hj. injection Hj as <- _.
      unfold question_request_of. eauto.
    + right. split; [apply Nat.even_odd|].
      destruct (proj2 (loop_run_requests _ _ _ _ _ _ _ Hrun i) Hlt)
        as [c' Hc].
      rewrite Hc in Hj. injection Hj as <- _. eauto.
Qed.

(** ** The difficulty rule *)

Lemma level_easy : level (lit "easy") = Some 0%nat.
Proof. reflexivity. Qed.

Lemma level_medium : level (lit "medium") = Some 1%nat.
Proof. reflexivity. Qed.

Lemma level_hard : level (lit "hard") = Some 2%nat.
Proof. reflexivity. Qed.

(** *** Division rounded to binary64 *)

Lemma pow2_pos k : 0 < pow2 k.
Proof. unfold pow2. apply Z.pow_pos_nonneg; lia. Qed.

Lemma pow2_nonneg k : 0 <= k -> pow2 k = 2 ^ k.
Proof. intros H. unfold pow2. now rewrite Z.max_r by lia. Qed.

Lemma pow2_nonpos k : k <= 0 -> pow2 k = 1.
Proof. intros H. unfold pow2. now rewrite Z.max_l by lia. Qed.

Lemma pow2_split x y :
  pow2 (x + y) * pow2 (- x) * pow2 (- y)
  = pow2 (- (x + y)) * pow2 x * pow2 y.
Proof.
  destruct (Z.le_gt_cases 0 x) as [Hx|Hx];
  destruct (Z.le_gt_cases 0 y) as [Hy|Hy];
  destruct (Z.le_gt_cases 0 (x + y)) as [Hs|Hs];
  try lia;
  repeat match goal with
  | |- context [pow2 ?k] =>
      first [ rewrite (pow2_nonneg k) by lia | rewrite (pow2_nonpos k) by lia ]
  end;
  rewrite ?Z.mul_1_l, ?Z.mul_1_r;
  rewrite <- ?Z.pow_add_r by lia;
  try reflexivity; try (f_equal; lia).
Qed.

Lemma pow2_step x y :
  x <= y -> pow2 y * pow2 (- x) = pow2 (- y) * pow2 x * 2 ^ (y - x).
Proof.
  intros H. pose proof (pow2_split x (y - x)) as E.
  replace (x + (y - x)) with y in E by lia.
  rewrite (pow2_nonpos (- (y - x))) in E by lia.
  rewrite (pow2_nonneg (y - x)) in E by lia. lia.
Qed.

Lemma atleast_mono a b x y :
  0 <= b -> x <= y -> atleast a b y -> atleast a b x.
Proof.
  unfold atleast. intros Hb Hxy H.
  pose proof (pow2_step x y Hxy) as E.
  pose proof (pow2_pos x) as Px. pose proof (pow2_pos (- x)) as Pnx.
  pose proof (pow2_pos y) as Py. pose proof (pow2_pos (- y)) as Pny.
  assert (Ht : 1 <= 2 ^ (y - x))
    by (apply Z.pow_le_mono_r with (b := 0); lia).
  apply Z.mul_le_mono_pos_r with (p := pow2 (- y)); [lia|].
  assert (H1 : b * pow2 x * pow2 (- y)
               <= b * pow2 x * pow2 (- y) * 2 ^ (y - x)) by nia.
  assert (H2 : b * pow2 x * pow2 (- y) * 2 ^ (y - x)
               = b * pow2 y * pow2 (- x)) by nia.
  assert (H3 : b * pow2 y * pow2 (- x)
               <= a * pow2 (- y) * pow2 (- x)) by nia.
  nia.
Qed.

Lemma below_mono a b x y :
  0 <= b -> x <= y -> below a b x -> below a b y.
Proof.
  unfold below. intros Hb Hxy H.
  pose proof (pow2_step x y Hxy) as E.
  pose proof (pow2_pos x) as Px. pose proof (pow2_pos (- x)) as Pnx.
  pose proof (pow2_pos y) as Py. pose proof (pow2_pos (- y)) as Pny.
  assert (Ht : 1 <= 2 ^ (y - x))
    by (apply Z.pow_le_mono_r with (b := 0); lia).
  apply Z.mul_lt_mono_pos_r with (p := pow2 (- x)); [lia|].
  assert (H1 : a * pow2 (- x) * pow2 (- y)
               < b * pow2 x * pow2 (- y)) by nia.
  assert (H2 : b * pow2 x * pow2 (- y)
               <= b * pow2 x * pow2 (- y) * 2 ^ (y - x)) by nia.
  assert (H3 : b * pow2 x * pow2 (- y) * 2 ^ (y - x)
               = b * pow2 y * pow2 (- x)) by nia.
  nia.
Qed.

Lemma binade_spec a b :
  0 < a -> 0 < b -> atleast a b (binade a b) /\ below a b (binade a b + 1).
Proof.
  intros Ha Hb.
  pose proof (Z.log2_spec a Ha) as [La Ua].
  pose proof (Z.log2_spec b Hb) as [Lb Ub].
  pose proof (Z.log2_nonneg a) as Na. pose proof (Z.log2_nonneg b) as Nb.
  set (la := Z.log2 a) in *. set (lb := Z.log2 b) in *.
  assert (Hlow : atleast a b (la - lb - 1)).
  { unfold atleast.
    pose proof (pow2_split (la - lb - 1) (lb + 1)) as E.
    replace (la - lb - 1 + (lb + 1)) with la in E by lia.
    rewrite (pow2_nonneg la), (pow2_nonpos (- la)),
      (pow2_nonpos (- (lb + 1))), (pow2_nonneg (lb + 1)) in E by lia.
    replace (Z.succ lb) with (lb + 1) in Ub by lia.
    pose proof (pow2_pos (la - lb - 1)) as P1.
    pose proof (pow2_pos (- (la - lb - 1))) as P2.
    nia. }
  assert (Hup : below a b (la - lb + 1)).
  { unfold below.
    pose proof (pow2_split (la - lb + 1) lb) as E.
    replace (la - lb + 1 + lb) with (la + 1) in E by lia.
    rewrite (pow2_nonneg (la + 1)), (pow2_nonpos (- (la + 1))),
      (pow2_nonpos (- lb)), (pow2_nonneg lb) in E by lia.
    replace (Z.succ la) with (la + 1) in Ua by lia.
    pose proof (pow2_pos (la - lb + 1)) as P1.
    pose proof (pow2_pos (- (la - lb + 1))) as P2.
    nia. }
  unfold binade. fold la lb.
  destruct (Z.ltb_spec (a * pow2 (- (la - lb))) (b * pow2 (la - lb))) as [H|H].
  - split; [exact Hlow|].
    replace (la - lb - 1 + 1) with (la - lb) by lia. exact H.
  - split; [exact H | exact Hup].
Qed.

Lemma round_half_even_range num den :
  0 < den ->
  num / den <= round_half_even num den <= num / den + 1.
Proof.
  intros Hd. unfold round_half_even.
  destruct (2 * (num mod den) <? den); [lia|].
  destruct (den <? 2 * (num mod den)); [lia|].
  destruct (Z.even (num / den)); lia.
Qed.

Lemma round_half_even_ge num den m :
  0 < den -> m * den <= num -> m <= round_half_even num den.
Proof.
  intros Hd H. pose proof (round_half_even_range num den Hd) as [L _].
  pose proof (Z.div_mod num den ltac:(lia)) as E.
  pose proof (Z.mod_pos_bound num den Hd) as B.
  assert (m <= num / den) by nia. lia.
Qed.

Lemma round_half_even_le num den m :
  0 < den -> num <= m * den -> round_half_even num den <= m.
Proof.
  intros Hd H. unfold round_half_even.
  pose proof (Z.div_mod num den ltac:(lia)) as E.
  pose proof (Z.mod_pos_bound num den Hd) as B.
  assert (Hk : num / den <= m) by nia.
  destruct (Z.ltb_spec (2 * (num mod den)) den); [lia|].
  assert (num / den < m) by nia.
  destruct (den <? 2 * (num mod den)); [lia|].
  destruct (Z.even (num / den)); lia.
Qed.

Lemma round_half_even_lt_odd num den m :
  0 < den -> Z.odd m = true ->
  (round_half_even num den <? m) = (2 * num <=? (2 * m - 1) * den).
Proof.
  intros Hd Hm. unfold round_half_even.
  pose proof (Z.div_mod num den ltac:(lia)) as E.
  pose proof (Z.mod_pos_bound num den Hd) as B.
  set (k := num / den) in *. set (r := num mod den) in *.
  destruct (Z.ltb_spec (2 * r) den) as [H1|H1].
  - destruct (Z.ltb_spec k m), (Z.leb_spec (2 * num) ((2 * m - 1) * den));
      try reflexivity; nia.
  - destruct (Z.ltb_spec den (2 * r)) as [H2|H2].
    + destruct (Z.ltb_spec (k + 1) m),
        (Z.leb_spec (2 * num) ((2 * m - 1) * den));
        try reflexivity; nia.
    + assert (Hr : 2 * r = den) by lia.
      destruct (Z.even k) eqn:Hk.
      * destruct (Z.ltb_spec k m),
          (Z.leb_spec (2 * num) ((2 * m - 1) * den));
          try reflexivity; nia.
      * assert (Hkm : k <> m - 1).
        { intros ->. rewrite Z.even_sub in Hk. simpl in Hk.
          rewrite <- Z.negb_odd, Hm in Hk. discriminate. }
        destruct (Z.ltb_spec (k + 1) m),
          (Z.leb_spec (2 * num) ((2 * m - 1) * den));
          try reflexivity; nia.
Qed.

Lemma div_nearest_ltb a b M k :
  0 <= a -> 0 < b ->
  -1074 < k -> k <= -53 ->
  2 ^ 52 < M < 2 ^ 53 -> Z.odd M = true ->
  f64_ltb (div_nearest a b) {| mantissa := M; exponent := k |}
  = (a * 2 ^ (1 - k) <=? (2 * M - 1) * b).
Proof.
  intros Ha Hb Hk1 Hk2 HM Hodd.
  assert (H52 : 2 ^ 52 = 4503599627370496) by reflexivity.
  assert (H53 : 2 ^ 53 = 9007199254740992) by reflexivity.
  assert (H54 : 2 ^ 54 = 18014398509481984) by reflexivity.
  unfold div_nearest. destruct (Z.eqb_spec a 0) as [->|Hne].
  - unfold f64_ltb. cbn [mantissa exponent].
    pose proof (pow2_pos (k - -1074)) as P1.
    destruct (Z.ltb_spec (0 * pow2 (-1074 - k)) (M * pow2 (k - -1074)));
      destruct (Z.leb_spec (0 * 2 ^ (1 - k)) ((2 * M - 1) * b));
      try reflexivity; nia.
  - assert (Ha' : 0 < a) by lia.
    destruct (binade_spec a b Ha' Hb) as [Hlo Hhi].
    set (e := binade a b) in *.
    set (q := Z.max (e - 52) (-1074)).
    unfold f64_ltb. cbn [mantissa exponent].
    set (n := round_half_even (a * pow2 (- q)) (b * pow2 q)).
    pose proof (pow2_pos q) as Pq. pose proof (pow2_pos (- q)) as Pnq.
    assert (Hden : 0 < b * pow2 q) by nia.
    destruct (Z.lt_trichotomy e (k + 52)) as [He | [He | He]].
    + (* below the binade of the constant *)
      assert (Hq : q <= k - 1) by (unfold q; lia).
      assert (Hb1 : below a b (k + 52))
        by (apply (below_mono a b (e + 1)); [lia | lia | exact Hhi]).
      unfold below in Hb1.
      rewrite (pow2_nonpos (k + 52)), (pow2_nonneg (- (k + 52))) in Hb1 by lia.
      assert (E1 : 2 ^ (- q) = 2 ^ (- (k + 52)) * (2 ^ 52 * 2 ^ (k - q))).
      { rewrite <- !Z.pow_add_r by lia. f_equal. lia. }
      assert (E2 : 2 ^ (1 - k) = 2 ^ (- (k + 52)) * 2 ^ 53).
      { rewrite <- Z.pow_add_r by lia. f_equal. lia. }
      assert (Pt : 0 < 2 ^ (k - q)) by (apply Z.pow_pos_nonneg; lia).
      assert (Pe : 0 < 2 ^ (- (k + 52))) by (apply Z.pow_pos_nonneg; lia).
      assert (Hn : n <= 2 ^ 52 * 2 ^ (k - q)).
      { apply round_half_even_le; [exact Hden|].
        rewrite (pow2_nonpos q), (pow2_nonneg (- q)) by lia.
        rewrite E1. nia. }
      rewrite (pow2_nonpos (q - k)), (pow2_nonneg (k - q)) by lia.
      rewrite E2.
      destruct (Z.ltb_spec (n * 1) (M * 2 ^ (k - q)));
        destruct (Z.leb_spec (a * (2 ^ (- (k + 52)) * 2 ^ 53))
                    ((2 * M - 1) * b));
        try reflexivity; nia.
    + (* in the binade of the constant *)
      assert (Hq : q = k) by (unfold q; lia).
      assert (Hden' : 0 < b * pow2 k) by (rewrite <- Hq; exact Hden).
      unfold n. rewrite Hq.
      replace (k - k) with 0 by lia. rewrite (pow2_nonpos 0) by lia.
      rewrite !Z.mul_1_r.
      rewrite (round_half_even_lt_odd _ _ M Hden' Hodd).
      rewrite (pow2_nonpos k), (pow2_nonneg (- k)) by lia.
      replace (1 - k) with (1 + - k) by lia.
      rewrite Z.pow_add_r by lia. f_equal; lia.
    + (* above the binade of the constant *)
      assert (Hq : q = e - 52) by (unfold q; lia).
      assert (Ha1 : atleast a b (k + 53))
        by (apply (atleast_mono a b (k + 53) e); [lia | lia | exact Hlo]).
      unfold atleast in Ha1.
      rewrite (pow2_nonpos (k + 53)), (pow2_nonneg (- (k + 53))) in Ha1 by lia.
      assert (E2 : 2 ^ (1 - k) = 2 ^ (- (k + 53)) * 2 ^ 54).
      { rewrite <- Z.pow_add_r by lia. f_equal. lia. }
      assert (Pe : 0 < 2 ^ (- (k + 53))) by (apply Z.pow_pos_nonneg; lia).
      assert (Hn : 2 ^ 52 <= n).
      { apply round_half_even_ge; [exact Hden|].
        pose proof (pow2_split q 52) as E.
        replace (q + 52) with e in E by lia.
        rewrite (pow2_nonpos (Z.opp 52)), (pow2_nonneg 52) in E by lia.
        unfold atleast in Hlo.
        pose proof (pow2_pos e) as Pe1. pose proof (pow2_pos (- e)) as Pe2.
        apply Z.mul_le_mono_pos_r with (p := pow2 (- e)); [lia|]. nia. }
      rewrite (pow2_nonneg (q - k)), (pow2_nonpos (k - q)) by lia.
      assert (Pt : 2 <= 2 ^ (q - k)).
      { change 2 with (2 ^ 1) at 1. apply Z.pow_le_mono_r; lia. }
      rewrite E2.
      destruct (Z.ltb_spec (n * 2 ^ (q - k)) (M * 1));
        destruct (Z.leb_spec (a * (2 ^ (- (k + 53)) * 2 ^ 54))
                    ((2 * M - 1) * b));
        try reflexivity; nia.
Qed.

(** The integer [round_half_even] gives is a nearest one: it is off the
    fraction by a half at most. *)
Lemma round_half_even_nearest num den :
  0 < den ->
  Z.abs (2 * (round_half_even num den * den - num)) <= den.
Proof.
  intros Hd. unfold round_half_even.
  pose proof (Z.div_mod num den ltac:(lia)) as E.
  pose proof (Z.mod_pos_bound num den Hd) as B.
  set (k := num / den) in *. set (r := num mod den) in *.
  destruct (Z.ltb_spec (2 * r) den) as [H1|H1]; [nia|].
  destruct (Z.ltb_spec den (2 * r)) as [H2|H2]; [nia|].
  destruct (Z.even k); nia.
Qed.

Lemma truediv_nonneg a b :
  0 <= a -> 0 < b -> truediv a b = div_nearest a b.
Proof.
  intros Ha Hb. unfold truediv.
  rewrite (Z.abs_eq a Ha), (Z.abs_eq b) by lia.
  rewrite (Z.sgn_pos b Hb).
  destruct (Z.eq_dec a 0) as [->|Hne].
  - reflexivity.
  - rewrite (Z.sgn_pos a) by lia.
    destruct (div_nearest a b) as [n q]. cbn [mantissa exponent].
    f_equal. lia.
Qed.

Lemma f64_leb_ltb (x y : float64) : f64_leb x y = negb (f64_ltb y x).
Proof. unfold f64_leb, f64_ltb. apply Z.leb_antisym. Qed.

(** The quotient of an index by a divisor it does not exceed is between
    0 and 1: the division of the difficulty rule, where the index is
    below the total, stays far from the end of the binary64 range. *)
Lemma progress_in_unit_interval (a b : Z) :
  0 <= a <= b -> 0 < b ->
  f64_leb {| mantissa := 0; exponent := 0 |} (truediv a b) = true
  /\ f64_leb (truediv a b) {| mantissa := 1; exponent := 0 |} = true.
Proof.
  intros [Ha Hab] Hb. rewrite (truediv_nonneg a b Ha Hb).
  unfold div_nearest. destruct (Z.eqb_spec a 0) as [->|Hne].
  - split; reflexivity.
  - assert (Ha' : 0 < a) by lia.
    destruct (binade_spec a b Ha' Hb) as [Hlo _].
    set (e := binade a b) in *.
    assert (He : e <= 0).
    { destruct (Z.le_gt_cases e 0) as [H|H]; [exact H|].
      assert (H1 : atleast a b 1)
        by (apply (atleast_mono a b 1 e); [lia | lia | exact Hlo]).
      unfold atleast in H1.
      rewrite (pow2_nonneg 1), (pow2_nonpos (Z.opp 1)) in H1 by lia.
      change (2 ^ 1) with 2 in H1. lia. }
    set (q := Z.max (e - 52) (-1074)).
    assert (Hq : q <= -52) by (unfold q; lia).
    pose proof (pow2_pos q) as Pq. pose proof (pow2_pos (- q)) as Pnq.
    assert (Hden : 0 < b * pow2 q) by nia.
    unfold f64_leb. cbn [mantissa exponent].
    set (n := round_half_even (a * pow2 (- q)) (b * pow2 q)).
    assert (Hn0 : 0 <= n).
    { apply round_half_even_ge; [exact Hden | nia]. }
    assert (Hn1 : n <= pow2 (- q)).
    { apply round_half_even_le; [exact Hden|].
      rewrite (pow2_nonpos q) by lia. nia. }
    replace (q - 0) with q by lia. replace (0 - q) with (- q) by lia.
    rewrite (pow2_nonpos q) by lia.
    split; [apply Z.leb_le; nia | apply Z.leb_le; lia].
Qed.

(** The quotient of the model is the quotient of the kernel's binary64
    division, on every index of every total from 0 to 50, and on some
    operands up to 2^53, with quotients below and above 1. *)
Lemma agree_on_admitted : forallb agree_on (range 51) = true.
Proof. vm_compute. reflexivity. Qed.

Example agree_at_large_operands :
  forallb (fun p => agree_at (fst p) (snd p))
    [ (1, 3); (2, 3); (33, 100); (66, 100); (1, 10);
      (4503599627370497, 9007199254740991);
      (9007199254740991, 4503599627370497);
      (1, 9007199254740991); (9007199254740991, 1);
      (4274285978473171, 9007199254740989);
      (2972375754064527, 9007199254740992);
      (2972375754064528, 9007199254740991);
      (5944751508129055, 9007199254740992);
      (123456789, 987654321987) ] = true.
Proof. vm_compute. reflexivity. Qed.

(** ** The difficulty rule *)

(** [progress < 0.33], for an index from 0 on and a positive divisor, in
    integers: the quotient rounds to a number below the literal exactly
    when it is not above the middle between the literal and the binary64
    number before it (at the middle the rounding goes to the even
    mantissa, which is not the literal's). *)
Lemma progress_below_0_33 (i d : Z) :
  0 <= i -> 0 < d ->
  f64_ltb (truediv i d) literal_0_33
  = (i * 2 ^ 55 <=? 11889503016258109 * d).
Proof.
  intros Hi Hd. rewrite (truediv_nonneg i d Hi Hd). unfold literal_0_33.
  rewrite (div_nearest_ltb i d 5944751508129055 (-54) Hi Hd);
    [reflexivity | lia | lia | split; reflexivity | reflexivity].
Qed.

Lemma progress_below_0_66 (i d : Z) :
  0 <= i -> 0 < d ->
  f64_ltb (truediv i d) literal_0_66
  = (i * 2 ^ 54 <=? 11889503016258109 * d).
Proof.
  intros Hi Hd. rewrite (truediv_nonneg i d Hi Hd). unfold literal_0_66.
  rewrite (div_nearest_ltb i d 5944751508129055 (-53) Hi Hd);
    [reflexivity | lia | lia | split; reflexivity | reflexivity].
Qed.

(** The rule of the source in integers, for every index from 0 on and
    every total. *)
Lemma difficulty_at_thresholds (i N : Z) :
  0 <= i ->
  difficulty_at i N
  = if i * 2 ^ 55 <=? 11889503016258109 * Z.max (N - 1) 1 then lit "easy"
    else if i * 2 ^ 54 <=? 11889503016258109 * Z.max (N - 1) 1
         then lit "medium"
    else lit "hard".
Proof.
  intros Hi. unfold difficulty_at. cbv zeta.
  rewrite progress_below_0_33, progress_below_0_66 by lia.
  reflexivity.
Qed.

(** The second test of the source is reached when [progress < 0.33]
    fails, that is when [0.33 <= progress]. *)
Lemma difficulty_at_banded (i N : Z) :
  difficulty_at i N = difficulty_banded i N.
Proof.
  unfold difficulty_at, difficulty_banded. cbv zeta.
  rewrite f64_leb_ltb.
  destruct (f64_ltb (truediv i (Z.max (N - 1) 1)) literal_0_33);
    reflexivity.
Qed.

Lemma lit_easy_medium : lit "easy" <> lit "medium".
Proof. discriminate. Qed.

Lemma lit_easy_hard : lit "easy" <> lit "hard".
Proof. discriminate. Qed.

Lemma lit_medium_hard : lit "medium" <> lit "hard".
Proof. discriminate. Qed.

(** The three cases of the rule, each with the condition on [progress]
    it stands for. *)
Lemma difficulty_at_cases (i N : Z) :
  0 <= i ->
  (difficulty_at i N = lit "easy"
   <-> f64_ltb (truediv i (Z.max (N - 1) 1)) literal_0_33 = true)
  /\ (difficulty_at i N = lit "medium"
      <-> f64_leb literal_0_33 (truediv i (Z.max (N - 1) 1)) = true
          /\ f64_ltb (truediv i (Z.max (N - 1) 1)) literal_0_66 = true)
  /\ (difficulty_at i N = lit "hard"
      <-> f64_leb literal_0_66 (truediv i (Z.max (N - 1) 1)) = true).
Proof.
  intros Hi.
  assert (Hd : 0 < Z.max (N - 1) 1) by lia.
  rewrite !f64_leb_ltb. unfold difficulty_at. cbv zeta.
  rewrite (progress_below_0_33 i _ Hi Hd), (progress_below_0_66 i _ Hi Hd).
  set (d := Z.max (N - 1) 1) in *.
  assert (H54 : 2 ^ 54 = 18014398509481984) by reflexivity.
  assert (H55 : 2 ^ 55 = 36028797018963968) by reflexivity.
  rewrite H54, H55.
  pose proof lit_easy_medium as Em. pose proof lit_easy_hard as Eh.
  pose proof lit_medium_hard as Mh.
  destruct (Z.leb_spec (i * 36028797018963968) (11889503016258109 * d));
    destruct (Z.leb_spec (i * 18014398509481984) (11889503016258109 * d));
    cbn [negb]; try lia;
    (split; [|split]); split;
    try reflexivity; try discriminate; try congruence;
    try (intros [? ?]; discriminate);
    try (intros _; split; reflexivity).
Qed.

(** As long as the total is not above 2^48, the rule is the comparison
    of the exact quotient with 33/100 and 66/100. *)
Lemma difficulty_at_exact_wide (i N : Z) :
  0 <= i -> N <= 2 ^ 48 ->
  difficulty_at i N = difficulty_exact i N.
Proof.
  intros Hi HN. rewrite (difficulty_at_thresholds i N Hi).
  unfold difficulty_exact.
  assert (H48 : 2 ^ 48 = 281474976710656) by reflexivity.
  assert (H54 : 2 ^ 54 = 18014398509481984) by reflexivity.
  assert (H55 : 2 ^ 55 = 36028797018963968) by reflexivity.
  rewrite H48 in HN. rewrite H54, H55.
  set (d := Z.max (N - 1) 1).
  assert (Hd : 1 <= d <= 281474976710656) by (unfold d; lia).
  destruct (Z.leb_spec (i * 36028797018963968) (11889503016258109 * d));
    destruct (Z.leb_spec (i * 18014398509481984) (11889503016258109 * d));
    destruct (Z.ltb_spec (100 * i) (33 * d));
    destruct (Z.ltb_spec (100 * i) (66 * d));
    try reflexivity; lia.
Qed.

Lemma difficulty_at_exact (i N : Z) :
  1 <= N <= 50 -> 0 <= i < N ->
  difficulty_at i N = difficulty_exact i N.
Proof.
  intros HN Hi. apply difficulty_at_exact_wide; [lia|].
  assert (H48 : 2 ^ 48 = 281474976710656) by reflexivity. lia.
Qed.

(** Far above 2^48 the two readings part: here the exact quotient is
    below 33/100 by less than half the distance between the literal
    [0.33] and the binary64 number before it, and rounds to the literal,
    so that the source says medium. *)
Example difficulty_rounds_quotient :
  difficulty_at 297000000000032 900000000000098 = lit "medium"
  /\ difficulty_exact 297000000000032 900000000000098 = lit "easy"
  /\ truediv 297000000000032 900000000000097 = literal_0_33.
Proof. repeat split; vm_compute; reflexivity. Qed.

(** A quotient between 33/100 and the literal [0.33], which is above
    33/100: it rounds to the literal and is medium on both readings. *)
Example difficulty_at_literal :
  truediv 4274285978473171 12952381752949003 = literal_0_33
  /\ difficulty_at 4274285978473171 12952381752949004 = lit "medium"
  /\ difficulty_exact 4274285978473171 12952381752949004 = lit "medium".
Proof. repeat split; vm_compute; reflexivity. Qed.

(** An index and a total beyond 2^63. *)
Example difficulty_of_large_total :
  difficulty_at 0 (2 ^ 63 + 1) = lit "easy"
  /\ difficulty_at (2 ^ 63 + 2) (2 ^ 64) = lit "medium"
  /\ difficulty_at (2 ^ 64 - 1) (2 ^ 64) = lit "hard".
Proof. repeat split; vm_compute; reflexivity. Qed.

(** ** C2 *)

(** C2: for every total [N >= 1] and every index [0 <= i < N], whatever
    the state of the agent and of the world, [generate_question] sends one
    request, whose prompt names the difficulty [difficulty_at i N] at its
    two places: the difficulty is a function of the index and the total
    alone.  With [progress = i / max(N - 1, 1)], the binary64 quotient
    Python computes, the difficulty is easy exactly when
    [progress < 0.33], medium exactly when [0.33 <= progress < 0.66] and
    hard exactly when [0.66 <= progress], and one of the three, which is
    the rule in the words of the specification, [difficulty_banded]; in
    integers, it is easy when [i * 2^55 <= 11889503016258109 * d], medium
    when not but [i * 2^54 <= 11889503016258109 * d], hard otherwise
    ([d = max(N - 1, 1)]); up to a total of 2^48 that is the comparison
    of the exact quotient with 33/100 and 66/100.  A session of one pair
    is easy; a session of three pairs has progress 0, 0.5 and 1 and is
    easy, medium and hard. *)
Theorem difficulty_rule :
  (forall (self : QuestionAgent.t) (subject : str) (i N : Z) (m : Machine),
      1 <= N -> 0 <= i < N ->
      exists c,
        new_exchanges m (snd (generate_question self subject i N m))
        = [({| model := QuestionAgent.model self;
               messages :=
                 [ {| role := lit "system";
                      content := lit "You are a helpful assistant that generates educational questions." |};
                   {| role := lit "user";
                      content :=
                        lit "You are an expert educator creating "
                        ++ difficulty_at i N
                        ++ lit " level questions about " ++ subject
                        ++ lit ".

Generate ONE clear, unambiguous question about " ++ subject ++ lit " at "
                        ++ difficulty_at i N
                        ++ lit " difficulty level.

Requirements:
- The question must be specific and answerable
- Make it different from previous questions in style and focus
- For easy: focus on definitions and basic concepts
- For medium: focus on application and understanding
- For hard: focus on analysis, synthesis, or complex scenarios
- Do not repeat similar questions
" ++ history_context (QuestionAgent.question_history self) ++ lit "

Generate only the question, no explanations or preamble." |} ];
               temperature := 0.7;
               max_tokens := 200 |}, c)])
  /\ (forall i N : Z,
         1 <= N -> 0 <= i < N ->
         let progress := truediv i (Z.max (N - 1) 1) in
         (difficulty_at i N = lit "easy"
          <-> f64_ltb progress literal_0_33 = true)
         /\ (difficulty_at i N = lit "medium"
             <-> f64_leb literal_0_33 progress = true
                 /\ f64_ltb progress literal_0_66 = true)
         /\ (difficulty_at i N = lit "hard"
             <-> f64_leb literal_0_66 progress = true)
         /\ (difficulty_at i N = lit "easy"
             \/ difficulty_at i N = lit "medium"
             \/ difficulty_at i N = lit "hard")
         /\ difficulty_at i N = difficulty_banded i N
         /\ difficulty_at i N
            = (if i * 2 ^ 55 <=? 11889503016258109 * Z.max (N - 1) 1
               then lit "easy"
               else if i * 2 ^ 54 <=? 11889503016258109 * Z.max (N - 1) 1
                    then lit "medium"
               else lit "hard")
         /\ (N <= 2 ^ 48 ->
             difficulty_at i N
             = if 100 * i <? 33 * Z.max (N - 1) 1 then lit "easy"
               else if 100 * i <? 66 * Z.max (N - 1) 1 then lit "medium"
               else lit "hard"))
  /\ (forall i : Z, 0 <= i < 1 -> difficulty_at i 1 = lit "easy")
  /\ (truediv 0 (Z.max (3 - 1) 1) = {| mantissa := 0; exponent := -1074 |}
      /\ to_prim (truediv 0 (Z.max (3 - 1) 1)) = 0%float
      /\ difficulty_at 0 3 = lit "easy"
      /\ truediv 1 (Z.max (3 - 1) 1)
         = {| mantissa := 2 ^ 52; exponent := -53 |}
      /\ to_prim (truediv 1 (Z.max (3 - 1) 1)) = 0.5%float
      /\ difficulty_at 1 3 = lit "medium"
      /\ truediv 2 (Z.max (3 - 1) 1)
         = {| mantissa := 2 ^ 52; exponent := -52 |}
      /\ to_prim (truediv 2 (Z.max (3 - 1) 1)) = 1%float
      /\ difficulty_at 2 3 = lit "hard").
Proof.
  split; [|split; [|split]].
  - intros self subject i N m _ _.
    destruct (generate_question_run self subject i N m)
      as [c [rs [Hx _]]].
    rewrite (new_exchanges_app _ _ _ Hx). exists c. reflexivity.
  - intros i N HN Hi progress. unfold progress.
    assert (Hi0 : 0 <= i) by lia.
    destruct (difficulty_at_cases i N Hi0) as [He [Hm Hh]].
    split; [exact He|]. split; [exact Hm|]. split; [exact Hh|].
    split; [|split; [|split]].
    + unfold difficulty_at. cbv zeta.
      destruct (f64_ltb (truediv i (Z.max (N - 1) 1)) literal_0_33);
        [now left|].
      destruct (f64_ltb (truediv i (Z.max (N - 1) 1)) literal_0_66);
        [right; now left | right; now right].
    + exact (difficulty_at_banded i N).
    + exact (difficulty_at_thresholds i N Hi0).
    + intros H48. exact (difficulty_at_exact_wide i N Hi0 H48).
  - intros i Hi. assert (i = 0) by lia. subst i. reflexivity.
  - repeat split; vm_compute; reflexivity.
Qed.

(** ** C6 *)

(** C6: for every total [N], the difficulty of iteration [i] is at or
    below the difficulty of every later iteration [j] of the session, in
    the order easy, medium, hard of [difficulty_levels]. *)
Theorem difficulty_monotone :
  forall N i j : Z,
    0 <= i <= j -> j < N ->
    exists a b,
      level (difficulty_at i N) = Some a
      /\ level (difficulty_at j N) = Some b
      /\ (a <= b)%nat.
Proof.
  intros N i j Hij _.
  rewrite (difficulty_at_thresholds i N), (difficulty_at_thresholds j N)
    by lia.
  assert (H54 : 2 ^ 54 = 18014398509481984) by reflexivity.
  assert (H55 : 2 ^ 55 = 36028797018963968) by reflexivity.
  rewrite H54, H55.
  set (d := Z.max (N - 1) 1).
  destruct (Z.leb_spec (i * 36028797018963968) (11889503016258109 * d));
    destruct (Z.leb_spec (i * 18014398509481984) (11889503016258109 * d));
    destruct (Z.leb_spec (j * 36028797018963968) (11889503016258109 * d));
    destruct (Z.leb_spec (j * 18014398509481984) (11889503016258109 * d));
    try lia;
    rewrite ?level_easy, ?level_medium, ?level_hard;
    do 2 eexists; (split; [reflexivity|]); (split; [reflexivity|]); lia.
Qed.

(** ** Request validation *)

Lemma nonblank_len (s : str) : strip s <> [] -> (len s <? 1) = false.
Proof.
  intros H. destruct s as [|c s]; [now elim H|].
  unfold len. simpl List.length. apply Z.ltb_ge. lia.
Qed.

Lemma validate_subject_ok (s : str) :
  strip s <> [] -> validate_subject (Some s) = inr (strip s).
Proof.
  intros H. simpl. rewrite (nonblank_len s H). unfold subject_not_empty.
  destruct (strip s); [now elim H | reflexivity].
Qed.

Lemma validate_subject_blank (s : str) :
  forallb isspace s = true ->
  exists e, validate_subject (Some s) = inl [e].
Proof.
  intros H. simpl. destruct (len s <? 1); [eauto|].
  unfold subject_not_empty. rewrite (strip_blank s H). eauto.
Qed.

(** What a validated subject is. *)
Lemma validate_subject_inr (v : option str) (t : str) :
  validate_subject v = inr t ->
  exists s, v = Some s /\ t = strip s /\ strip s <> [].
Proof.
  destruct v as [s|]; simpl; [|discriminate].
  destruct (len s <? 1); [discriminate|].
  unfold subject_not_empty. destruct (strip s) eqn:Hs; [discriminate|].
  intros H. injection H as <-. exists s. rewrite Hs.
  repeat split. discriminate.
Qed.

Lemma validate_num_pairs_inr (v : option Z) (n : Z) :
  validate_num_pairs v = inr n ->
  1 <= n <= 50 /\ (v = None /\ n = 10 \/ v = Some n).
Proof.
  destruct v as [k|]; simpl.
  - destruct (Z.ltb_spec k 1); [discriminate|].
    destruct (Z.ltb_spec 50 k); [discriminate|].
    intros Heq. injection Heq as <-. split; [lia | now right].
  - intros Heq. injection Heq as <-. split; [lia | now left].
Qed.

Lemma validate_num_pairs_out (n : Z) :
  n < 1 \/ 50 < n -> exists e, validate_num_pairs (Some n) = inl [e].
Proof.
  intros H. simpl. destruct (Z.ltb_spec n 1); [eauto|].
  destruct (Z.ltb_spec 50 n); [eauto | lia].
Qed.

Lemma model_validate_inr (b : Body) (request : SessionRequest.t) :
  model_validate b = inr request ->
  validate_subject (body_subject b)
  = inr (SessionRequest.subject request)
  /\ validate_num_pairs (body_num_pairs b)
     = inr (SessionRequest.num_pairs request).
Proof.
  unfold model_validate.
  destruct (validate_subject (body_subject b)) as [es|s];
    destruct (validate_num_pairs (body_num_pairs b)) as [es'|n];
    try discriminate.
  intros H. injection H as <-. auto.
Qed.

(** A body with a field that fails validation is rejected. *)
Lemma model_validate_inl (b : Body) :
  (exists e, validate_subject (body_subject b) = inl [e])
  \/ (exists e, validate_num_pairs (body_num_pairs b) = inl [e]) ->
  exists e es, model_validate b = inl (e :: es).
Proof.
  unfold model_validate. intros [[e H]|[e H]]; rewrite H.
  - destruct (validate_num_pairs (body_num_pairs b)); simpl; eauto.
  - destruct (validate_subject (body_subject b)) as [[|e' es]|s];
      simpl; eauto.
Qed.

(** The core raises nothing but the errors of its two generators. *)
Lemma run_qa_session_raises subject n api_key m e :
  fst (run_qa_session subject n api_key m) = Raise e ->
  exists msg, e = failed_question msg \/ e = failed_answer msg.
Proof.
  rewrite run_qa_session_frame_eq. cbn [fst]. intros He.
  destruct (run_qa_session_frame_run subject n api_key m)
    as [xs [rs [r0 [_ [_ [Hrun Hout]]]]]].
  destruct (loop_run_inv _ _ _ _ _ _ _ Hrun) as [ps [_ [_ [_ Hr]]]].
  rewrite Hout in He. destruct r0 as [u|ex]; [discriminate|].
  injection He as <-.
  destruct Hr as [oks [rq [msg [_ [_ [_ [[_ [-> _]]|[_ [-> _]]]]]]]]];
    eauto.
Qed.

(** ** C7 *)

(** C7: a body without subject, with an empty or whitespace-only
    subject, or with a [num_pairs] below 1 or above 50 fails validation;
    the answer is then status 422 with the validation failures and the
    machine state is untouched: no record of a session is logged and no
    exchange with the completion service takes place.  Conversely a body
    that passes has a subject that is not whitespace-only and a
    [num_pairs] that is absent or in 1..50, and the request made from it
    has a non-empty stripped subject and a [num_pairs] in 1..50.  The core
    raises no validation error: every error of [run_qa_session] is the
    [RuntimeError] of one of its generators. *)
Theorem invalid_request_rejected :
  (forall (b : Body) (m : Machine),
      body_subject b = None
      \/ (exists s, body_subject b = Some s /\ forallb isspace s = true)
      \/ (exists n, body_num_pairs b = Some n /\ (n < 1 \/ 50 < n)) ->
      exists e es,
        model_validate b = inl (e :: es)
        /\ post_run_session b m
           = ({| status := 422; body := detail_errors (e :: es) |}, m)
        /\ new_records m (snd (post_run_session b m)) = []
        /\ new_exchanges m (snd (post_run_session b m)) = [])
  /\ (forall (b : Body) (request : SessionRequest.t),
         model_validate b = inr request ->
         (exists s, body_subject b = Some s /\ forallb isspace s = false)
         /\ (body_num_pairs b = None
             \/ exists n, body_num_pairs b = Some n /\ 1 <= n <= 50)
         /\ SessionRequest.subject request <> []
         /\ strip (SessionRequest.subject request)
            = SessionRequest.subject request
         /\ 1 <= SessionRequest.num_pairs request <= 50)
  /\ (forall subject N api_key m e,
         fst (run_qa_session subject N api_key m) = Raise e ->
         exists msg, e = RuntimeError msg).
Proof.
  split; [|split].
  - intros b m Hbad.
    assert (Hfield :
      (exists e, validate_subject (body_subject b) = inl [e])
      \/ (exists e, validate_num_pairs (body_num_pairs b) = inl [e])).
    { destruct Hbad as [Hs | [[s [Hs Hblank]] | [n [Hn Hout]]]].
      - left. rewrite Hs. simpl. eauto.
      - left. rewrite Hs. now apply validate_subject_blank.
      - right. rewrite Hn. now apply validate_num_pairs_out. }
    destruct (model_validate_inl b Hfield) as [e [es Hv]].
    exists e, es. unfold post_run_session. rewrite Hv.
    repeat split; cbn [snd];
      [unfold new_records | unfold new_exchanges]; apply skipn_all.
  - intros b request Hv.
    destruct (model_validate_inr b request Hv) as [Hs Hn].
    destruct (validate_subject_inr _ _ Hs) as [s [Hb [Ht Hne]]].
    destruct (validate_num_pairs_inr _ _ Hn) as [Hrange Hgiven].
    rewrite Ht. split; [|split; [|split; [|split]]].
    + exists s. split; [exact Hb|].
      destruct (forallb isspace s) eqn:Hblank; [|reflexivity].
      elim Hne. now apply strip_blank.
    + destruct Hgiven as [[Hnone _] | Hsome]; [now left|].
      right. exists (SessionRequest.num_pairs request). auto.
    + exact Hne.
    + apply strip_idempotent.
    + exact Hrange.
  - intros subject N api_key m e He.
    destruct (run_qa_session_raises _ _ _ _ _ He) as [msg [-> | ->]];
      eexists; reflexivity.
Qed.

(** ** The endpoint *)

Lemma unexpected_records e m :
  records (snd (unexpected e m)) = records m ++ [error_unexpected e].
Proof. reflexivity. Qed.

Lemma save_session_records subject pairs_data m :
  exists rs,
    records (snd (save_session subject pairs_data m)) = records m ++ rs.
Proof.
  unfold save_session.
  destruct (QAPair_validate_all pairs_data) as [es|qs];
    [eexists; apply unexpected_records|].
  destruct (write_json _ _ (world m)) as [[e|] w]; eexists; reflexivity.
Qed.

(** With a key configured, the endpoint function logs the request and
    starts a session on the subject and the count of the request. *)
Lemma run_session_records request m c key :
  getenv_api_key (world m) = Some (c :: key) ->
  exists rs,
    new_records m (snd (run_session request m))
    = info_received_request (SessionRequest.subject request)
        (SessionRequest.num_pairs request)
      :: info_starting_session (SessionRequest.subject request)
           (SessionRequest.num_pairs request)
      :: rs.
Proof.
  intros Hkey. unfold run_session.
  set (subject := SessionRequest.subject request).
  set (n := SessionRequest.num_pairs request).
  set (m0 := logger _ m).
  change (world m0) with (world m). rewrite Hkey.
  rewrite run_qa_session_frame_eq.
  destruct (run_qa_session_frame_run subject n (c :: key) m0)
    as [xs [rs [r0 [_ [Hr _]]]]].
  set (r := fst (fst _)). set (m1 := snd _) in Hr |- *.
  assert (Hm1 : records m1
                = records m
                  ++ info_received_request subject n
                     :: info_starting_session subject n :: rs).
  { rewrite Hr. unfold m0. simpl. rewrite <- app_assoc. reflexivity. }
  assert (Hgrow : forall m2 rs',
             records m2 = records m1 ++ rs' ->
             exists rs0,
               new_records m m2
               = info_received_request subject n
                 :: info_starting_session subject n :: rs0).
  { intros m2 rs' H2. exists (rs ++ rs'). apply new_records_app.
    rewrite H2, Hm1, <- app_assoc. reflexivity. }
  destruct r as [pairs_data|[msg|es|msg|code detail]]; cbn [snd].
  - destruct (save_session_records subject pairs_data m1) as [rs' H2].
    exact (Hgrow _ _ H2).
  - apply (Hgrow _ [error_runtime msg]). reflexivity.
  - exact (Hgrow _ _ (unexpected_records _ m1)).
  - exact (Hgrow _ _ (unexpected_records _ m1)).
  - exact (Hgrow _ _ (unexpected_records _ m1)).
Qed.

(** A response the endpoint function returns echoes the subject of the
    request, and the last record logged names the file it was saved to. *)
Lemma run_session_saved request m response :
  fst (run_session request m) = Return response ->
  SessionResponse.subject response = SessionRequest.subject request
  /\ exists timestamp,
       last (records (snd (run_session request m))) error_api_key_not_found
       = info_session_saved
           (session_filepath (SessionRequest.subject request) timestamp).
Proof.
  unfold run_session.
  set (m0 := logger _ m).
  destruct (getenv_api_key (world m0)) as [[|c key]|]; simpl;
    try discriminate.
  destruct (run_qa_session (SessionRequest.subject request)
              (SessionRequest.num_pairs request) (c :: key) m0)
    as [r m1].
  destruct r as [pairs_data|[msg|es|msg|code detail]]; simpl;
    try discriminate.
  unfold save_session.
  destruct (QAPair_validate_all pairs_data) as [es|qs]; simpl;
    try discriminate.
  destruct (write_json _ _ (world m1)) as [[e|] w]; simpl;
    try discriminate.
  intros H. injection H as <-. split; [reflexivity|].
  exists (strftime_now (world m1)). apply last_last.
Qed.

Lemma post_run_session_valid b request m :
  model_validate b = inr request ->
  snd (post_run_session b m) = snd (run_session request m)
  /\ forall response,
       body (fst (post_run_session b m)) = session_body response ->
       fst (run_session request m) = Return response.
Proof.
  intros Hv. unfold post_run_session. rewrite Hv.
  destruct (run_session request m) as [r m'].
  destruct r as [resp|[msg|es|msg|code detail]]; simpl;
    split; try reflexivity; intros response H;
    try discriminate.
  injection H as <-. reflexivity.
Qed.

(** ** C9 *)

(** C9: a body with a valid subject and no [num_pairs] validates, to the
    request with the stripped subject and [num_pairs = 10]; the endpoint
    treats it as the body that gives 10 explicitly; with a key configured
    the session it starts is a session of 10 pairs, the loop of which
    runs over the ten indices 0..9; and when all its generations succeed
    that session has 20 exchanges and returns 10 pairs. *)
Theorem num_pairs_default :
  forall s : str,
    strip s <> [] ->
    model_validate {| body_subject := Some s; body_num_pairs := None |}
    = inr {| SessionRequest.subject := strip s;
             SessionRequest.num_pairs := 10 |}
    /\ (forall m,
          post_run_session
            {| body_subject := Some s; body_num_pairs := None |} m
          = post_run_session
              {| body_subject := Some s; body_num_pairs := Some 10 |} m)
    /\ (forall m c key,
          getenv_api_key (world m) = Some (c :: key) ->
          exists rs,
            new_records m
              (snd (post_run_session
                      {| body_subject := Some s; body_num_pairs := None |}
                      m))
            = info_received_request (strip s) 10
              :: info_starting_session (strip s) 10 :: rs)
    /\ range 10 = [0; 1; 2; 3; 4; 5; 6; 7; 8; 9]
    /\ (forall api_key m,
          forallb succeeded
            (new_exchanges m
               (snd (run_qa_session (strip s) 10 api_key m))) = true ->
          exists pairs_data,
            fst (run_qa_session (strip s) 10 api_key m) = Return pairs_data
            /\ len pairs_data = 10
            /\ List.length
                 (new_exchanges m
                    (snd (run_qa_session (strip s) 10 api_key m)))
               = 20%nat).
Proof.
  intros s Hs.
  assert (Hv : model_validate
                 {| body_subject := Some s; body_num_pairs := None |}
               = inr {| SessionRequest.subject := strip s;
                        SessionRequest.num_pairs := 10 |}).
  { unfold model_validate. cbn [body_subject body_num_pairs].
    rewrite (validate_subject_ok s Hs). reflexivity. }
  split; [exact Hv|]. split; [|split; [|split; [reflexivity|]]].
  - intros m. unfold post_run_session. rewrite Hv.
    unfold model_validate. cbn [body_subject body_num_pairs].
    rewrite (validate_subject_ok s Hs). reflexivity.
  - intros m c key Hkey.
    destruct (post_run_session_valid _ _ m Hv) as [-> _].
    exact (run_session_records _ m c key Hkey).
  - intros api_key m Hok.
    rewrite run_qa_session_frame_eq in Hok |- *. cbn [fst snd] in Hok |- *.
    destruct (session_success (strip s) 10 api_key m ltac:(lia) Hok)
      as [ps [Hret [_ [Hlen [_ [_ Hx]]]]]].
    exists ps. auto.
Qed.

(** ** C10 *)

(** C10: the subject of a validated request is the submitted subject
    stripped: the submitted text is that subject between a prefix and a
    suffix of whitespace only, and the subject neither starts nor ends
    with whitespace.  With a key configured, the session is started on
    the stripped subject; a Session Response the endpoint sends echoes
    the stripped subject, and the file it was saved to is named after
    the stripped subject. *)
Theorem subject_stripped :
  forall (b : Body) (request : SessionRequest.t),
    model_validate b = inr request ->
    exists s pre post,
      body_subject b = Some s
      /\ SessionRequest.subject request = strip s
      /\ s = pre ++ strip s ++ post
      /\ forallb isspace pre = true
      /\ forallb isspace post = true
      /\ (forall c r, strip s = c :: r -> isspace c = false)
      /\ (forall r c, strip s = r ++ [c] -> isspace c = false)
      /\ (forall m c key,
            getenv_api_key (world m) = Some (c :: key) ->
            exists rs,
              new_records m (snd (post_run_session b m))
              = info_received_request (strip s)
                  (SessionRequest.num_pairs request)
                :: info_starting_session (strip s)
                     (SessionRequest.num_pairs request)
                :: rs)
      /\ (forall m response,
            body (fst (post_run_session b m)) = session_body response ->
            SessionResponse.subject response = strip s
            /\ exists timestamp,
                 last (records (snd (post_run_session b m)))
                   error_api_key_not_found
                 = info_session_saved
                     (lit "qa_sessions/" ++ lit "qa_session_"
                      ++ safe_subject (strip s) ++ lit "_" ++ timestamp
                      ++ lit ".json")).
Proof.
  intros b request Hv.
  destruct (model_validate_inr b request Hv) as [Hs _].
  destruct (validate_subject_inr _ _ Hs) as [s [Hb [Ht _]]].
  destruct (strip_split s) as [pre [post [Hsplit [Hpre Hpost]]]].
  exists s, pre, post.
  split; [exact Hb|]. split; [exact Ht|]. split; [exact Hsplit|].
  split; [exact Hpre|]. split; [exact Hpost|].
  split; [exact (strip_first s)|]. split; [exact (strip_last s)|].
  split.
  - intros m c key Hkey.
    destruct (post_run_session_valid _ _ m Hv) as [-> _].
    rewrite <- Ht. exact (run_session_records _ m c key Hkey).
  - intros m response Hbody.
    destruct (post_run_session_valid _ _ m Hv) as [-> Hret].
    specialize (Hret response Hbody).
    destruct (run_session_saved _ _ _ Hret) as [Hsubj Hfile].
    rewrite <- Ht. split; [exact Hsubj | exact Hfile].
Qed.

(** ** The endpoint without a key *)

(** X1: when the environment has no key, or an empty one, the endpoint
    answers a valid request with status 500 and the configuration message,
    logs the request and the missing key and nothing else, and has no
    exchange with the completion service; the world is left as it was. *)
Theorem missing_key_no_session :
  forall (b : Body) (request : SessionRequest.t) (m : Machine),
    model_validate b = inr request ->
    getenv_api_key (world m) = None \/ getenv_api_key (world m) = Some [] ->
    fst (post_run_session b m)
    = {| status := 500;
         body := detail_text
                   (lit "OPENAI_API_KEY not configured. Please set it in .env file") |}
    /\ new_exchanges m (snd (post_run_session b m)) = []
    /\ new_records m (snd (post_run_session b m))
       = [info_received_request (SessionRequest.subject request)
            (SessionRequest.num_pairs request);
          error_api_key_not_found]
    /\ world (snd (post_run_session b m)) = world m.
Proof.
  intros b request m Hv Hkey.
  unfold post_run_session. rewrite Hv. unfold run_session.
  change (world (logger (info_received_request
                           (SessionRequest.subject request)
                           (SessionRequest.num_pairs request)) m))
    with (world m).
  assert (Hnew : forall rs,
             skipn (List.length (records m)) ((records m ++ rs)) = rs)
    by (intros rs; apply skipn_length_app).
  destruct Hkey as [Hk | Hk]; rewrite Hk; cbn [fst snd];
    (split; [reflexivity|]);
    (split; [unfold new_exchanges; apply skipn_all|]);
    (split; [|reflexivity]);
    unfold new_records; simpl; rewrite <- app_assoc; apply Hnew.
Qed.

(** ** The endpoint around a session *)

Lemma save_session_exchanges subject pairs_data m :
  exchanges (snd (save_session subject pairs_data m)) = exchanges m.
Proof.
  unfold save_session.
  destruct (QAPair_validate_all pairs_data) as [es|qs]; [reflexivity|].
  destruct (write_json _ _ (world m)) as [[e|] w]; reflexivity.
Qed.

(** With a key, the endpoint function is its session followed by the
    handling of the session's outcome. *)
Lemma run_session_with_key request m c key :
  getenv_api_key (world m) = Some (c :: key) ->
  run_session request m
  = match fst (session_of request (c :: key) m) with
    | Return pairs_data =>
        save_session (SessionRequest.subject request) pairs_data
          (snd (session_of request (c :: key) m))
    | Raise (RuntimeError msg) =>
        (Raise (HTTPException 500 msg),
         logger (error_runtime msg) (snd (session_of request (c :: key) m)))
    | Raise (ValidationError es) =>
        unexpected (validation_error_str es)
          (snd (session_of request (c :: key) m))
    | Raise (OSError msg) =>
        unexpected msg (snd (session_of request (c :: key) m))
    | Raise (HTTPException _ detail) =>
        unexpected detail (snd (session_of request (c :: key) m))
    end.
Proof.
  intros Hkey. unfold run_session, session_of, request_logged.
  change (world (logger (info_received_request
                           (SessionRequest.subject request)
                           (SessionRequest.num_pairs request)) m))
    with (world m).
  rewrite Hkey.
  destruct (run_qa_session _ _ (c :: key) _) as [r m1]. reflexivity.
Qed.

(** The endpoint function has no exchange of its own with the service. *)
Lemma run_session_exchanges request m c key :
  getenv_api_key (world m) = Some (c :: key) ->
  exchanges (snd (run_session request m))
  = exchanges (snd (session_of request (c :: key) m)).
Proof.
  intros Hkey. rewrite (run_session_with_key request m c key Hkey).
  destruct (fst (session_of request (c :: key) m))
    as [ps|[msg|es|msg|code detail]]; try reflexivity.
  apply save_session_exchanges.
Qed.

(** The answer of the endpoint for an outcome of the endpoint function. *)
Lemma post_run_session_answer b request m :
  model_validate b = inr request ->
  (forall response,
      fst (run_session request m) = Return response ->
      fst (post_run_session b m)
      = {| status := 200; body := session_body response |})
  /\ (forall code detail,
        fst (run_session request m) = Raise (HTTPException code detail) ->
        fst (post_run_session b m)
        = {| status := code; body := detail_text detail |}).
Proof.
  intros Hv. unfold post_run_session. rewrite Hv.
  destruct (run_session request m) as [r m']. cbn [fst].
  split.
  - intros response ->. reflexivity.
  - intros code detail ->. reflexivity.
Qed.

(** A session either had only successful exchanges and returns, or had a
    failed exchange and raises the error of a generator. *)
Lemma session_cases subject n api_key m :
  (forallb succeeded
     (new_exchanges m (snd (run_qa_session subject n api_key m))) = true
   /\ exists pairs_data,
        fst (run_qa_session subject n api_key m) = Return pairs_data)
  \/ (forallb succeeded
        (new_exchanges m (snd (run_qa_session subject n api_key m))) = false
      /\ exists oks rq msg,
           new_exchanges m (snd (run_qa_session subject n api_key m))
           = oks ++ [(rq, Failure msg)]
           /\ (fst (run_qa_session subject n api_key m)
               = Raise (failed_question msg)
               \/ fst (run_qa_session subject n api_key m)
                  = Raise (failed_answer msg))).
Proof.
  rewrite run_qa_session_frame_eq. cbn [fst snd].
  destruct (forallb succeeded
              (new_exchanges m
                 (snd (run_qa_session_frame subject n api_key m))))
    eqn:Hall.
  - left. split; [reflexivity|].
    destruct (run_qa_session_frame_run subject n api_key m)
      as [xs [rs [r0 [Hx [_ [Hrun Hout]]]]]].
    rewrite (new_exchanges_app _ _ _ Hx) in Hall.
    destruct (loop_run_inv _ _ _ _ _ _ _ Hrun) as [ps [_ [_ [_ Hr]]]].
    destruct r0 as [u|ex].
    + rewrite Hout. simpl. eauto.
    + destruct Hr as [oks [rq [e [Hxs _]]]]. subst xs.
      rewrite forallb_failure in Hall. discriminate.
  - right. split; [reflexivity|].
    destruct (session_failure subject n api_key m Hall)
      as [ps [oks [rq [msg [Hxs [_ [_ [_ [_ Hcase]]]]]]]]].
    exists oks, rq, msg. split; [exact Hxs|].
    destruct Hcase as [[_ [Hr _]] | [_ [Hr _]]]; [left | right]; exact Hr.
Qed.

(** X2: with a key configured, when a generation of the session fails
    the endpoint answers status 500 with the message of the generator that
    failed as its detail, logs that message last, and leaves the world as
    the session left it: no response is built and nothing is saved. *)
Theorem generation_failure_500 :
  forall (b : Body) (request : SessionRequest.t) (m : Machine)
         (c : char) (key : str),
    model_validate b = inr request ->
    getenv_api_key (world m) = Some (c :: key) ->
    forallb succeeded (new_exchanges m (snd (post_run_session b m))) = false ->
    exists oks rq msg detail,
      new_exchanges m (snd (post_run_session b m))
      = oks ++ [(rq, Failure msg)]
      /\ (detail = lit "Failed to generate question: " ++ msg
          \/ detail = lit "Failed to generate answer: " ++ msg)
      /\ fst (post_run_session b m)
         = {| status := 500; body := detail_text detail |}
      /\ last (records (snd (post_run_session b m))) error_api_key_not_found
         = error_runtime detail
      /\ world (snd (post_run_session b m))
         = world (snd (session_of request (c :: key) m)).
Proof.
  intros b request m c key Hv Hkey Hbad.
  destruct (post_run_session_valid b request m Hv) as [Hsnd _].
  destruct (post_run_session_answer b request m Hv) as [_ Hraise].
  rewrite Hsnd in Hbad |- *.
  assert (Hx : new_exchanges m (snd (run_session request m))
               = new_exchanges (request_logged request m)
                   (snd (session_of request (c :: key) m))).
  { unfold new_exchanges.
    rewrite (run_session_exchanges request m c key Hkey). reflexivity. }
  rewrite Hx in Hbad |- *.
  pose proof (run_session_with_key request m c key Hkey) as Hrun.
  unfold session_of in Hbad, Hrun |- *.
  destruct (session_cases (SessionRequest.subject request)
              (SessionRequest.num_pairs request) (c :: key)
              (request_logged request m))
    as [[Hall _] | [_ [oks [rq [msg [Hxs Hr]]]]]]; [congruence|].
  exists oks, rq, msg.
  destruct Hr as [Hr | Hr]; rewrite Hr in Hrun; unfold session_of in Hrun.
  - exists (lit "Failed to generate question: " ++ msg).
    split; [exact Hxs|]. split; [now left|].
    split; [apply Hraise; rewrite Hrun; reflexivity|].
    rewrite Hrun. split; [apply last_last | reflexivity].
  - exists (lit "Failed to generate answer: " ++ msg).
    split; [exact Hxs|]. split; [now right|].
    split; [apply Hraise; rewrite Hrun; reflexivity|].
    rewrite Hrun. split; [apply last_last | reflexivity].
Qed.

Lemma firstn_subset {A} (k : nat) (l : list A) (x : A) :
  In x (firstn k l) -> In x l.
Proof.
  revert l. induction k as [|k IH]; intros [|a l]; simpl; try tauto.
  intros [H|H]; [now left | right; now apply IH].
Qed.

(** The pairs a session returns always pass the [QAPair] schema. *)
Lemma session_pairs_valid subject n api_key m pairs_data :
  fst (run_qa_session subject n api_key m) = Return pairs_data ->
  QAPair_validate_all pairs_data = inr (List.map qapair_of pairs_data).
Proof.
  rewrite run_qa_session_frame_eq. cbn [fst]. intros Hret.
  destruct (run_qa_session_frame_run subject n api_key m)
    as [xs [rs [r0 [_ [_ [Hrun Hout]]]]]].
  destruct (loop_run_inv _ _ _ _ _ _ _ Hrun) as [ps [Hp [Hid _]]].
  rewrite Hout in Hret. destruct r0 as [u|ex]; [|discriminate].
  injection Hret as <-. simpl in Hp. rewrite Hp.
  apply QAPair_validate_all_ok. rewrite Hid.
  apply Forall_forall. intros x Hx. apply in_map_iff in Hx.
  destruct Hx as [i [<- Hi]]. apply firstn_subset, range_In in Hi. lia.
Qed.

(** X3: with a key configured, when the session returns its pairs but
    the file cannot be written, the endpoint function raises the HTTP
    error 500 with the detail "An unexpected error occurred: " followed by
    the error of the write, logs that error last, and returns no response:
    the pairs are lost to the caller although every generation succeeded. *)
Theorem write_failure_500 :
  forall (request : SessionRequest.t) (m : Machine) (c : char) (key : str)
         (pairs_data : list PairDict.t) (e : str),
    getenv_api_key (world m) = Some (c :: key) ->
    fst (session_of request (c :: key) m) = Return pairs_data ->
    fst (write_json
           (session_filepath (SessionRequest.subject request)
              (strftime_now (world (snd (session_of request (c :: key) m)))))
           (build_response (SessionRequest.subject request)
              (List.map qapair_of pairs_data))
           (world (snd (session_of request (c :: key) m))))
    = Some e ->
    fst (run_session request m)
    = Raise (HTTPException 500 (lit "An unexpected error occurred: " ++ e))
    /\ last (records (snd (run_session request m))) error_api_key_not_found
       = error_unexpected e
    /\ forallb succeeded (new_exchanges m (snd (run_session request m)))
       = true.
Proof.
  intros request m c key pairs_data e Hkey Hret Hwrite.
  assert (Hall : forallb succeeded
                   (new_exchanges m (snd (run_session request m))) = true).
  { unfold new_exchanges.
    rewrite (run_session_exchanges request m c key Hkey).
    unfold session_of in Hret |- *.
    rewrite run_qa_session_frame_eq in Hret |- *. cbn [fst snd] in Hret |- *.
    exact (session_return _ _ _ _ _ Hret). }
  split; [|split; [|exact Hall]];
    rewrite (run_session_with_key request m c key Hkey), Hret;
    unfold save_session;
    rewrite (session_pairs_valid _ _ _ _ _ Hret);
    destruct (write_json _ _ _) as [[e'|] w]; cbn [fst] in Hwrite;
    try discriminate; injection Hwrite as ->.
  - reflexivity.
  - apply last_last.
Qed.

(** X4: with a key configured, when every generation of the session
    succeeds, the session returns its pairs; and when the file system then
    accepts the one write the endpoint function makes, of the response to
    the session's file, the function returns that response: the subject
    of the request, the number of pairs, and for each pair of the session
    the [QAPair] with the same id, question and answer; the last record
    logged names the file, and the world is left as the write left it. *)
Theorem successful_request_saved :
  forall (request : SessionRequest.t) (m : Machine) (c : char) (key : str),
    getenv_api_key (world m) = Some (c :: key) ->
    forallb succeeded
      (new_exchanges (request_logged request m)
         (snd (session_of request (c :: key) m))) = true ->
    exists pairs_data,
      fst (session_of request (c :: key) m) = Return pairs_data
      /\ (fst (write_json
                 (session_filepath (SessionRequest.subject request)
                    (strftime_now
                       (world (snd (session_of request (c :: key) m)))))
                 {| SessionResponse.subject := SessionRequest.subject request;
                    SessionResponse.num_pairs := len pairs_data;
                    SessionResponse.pairs := List.map qapair_of pairs_data |}
                 (world (snd (session_of request (c :: key) m))))
          = None ->
          fst (run_session request m)
          = Return
              {| SessionResponse.subject := SessionRequest.subject request;
                 SessionResponse.num_pairs := len pairs_data;
                 SessionResponse.pairs := List.map qapair_of pairs_data |}
          /\ last (records (snd (run_session request m)))
                error_api_key_not_found
             = info_session_saved
                 (session_filepath (SessionRequest.subject request)
                    (strftime_now
                       (world (snd (session_of request (c :: key) m)))))
          /\ world (snd (run_session request m))
             = snd (write_json
                      (session_filepath (SessionRequest.subject request)
                         (strftime_now
                            (world (snd (session_of request (c :: key) m)))))
                      {| SessionResponse.subject :=
                           SessionRequest.subject request;
                         SessionResponse.num_pairs := len pairs_data;
                         SessionResponse.pairs :=
                           List.map qapair_of pairs_data |}
                      (world (snd (session_of request (c :: key) m))))).
Proof.
  intros request m c key Hkey Hall.
  unfold session_of in Hall |- *.
  destruct (session_cases (SessionRequest.subject request)
              (SessionRequest.num_pairs request) (c :: key)
              (request_logged request m))
    as [[_ [ps Hret]] | [Hbad _]];
    [|rewrite Hbad in Hall; discriminate].
  exists ps. split; [exact Hret|].
  assert (Hlen : len (List.map qapair_of ps) = len ps)
    by (unfold len; now rewrite length_map).
  rewrite (run_session_with_key request m c key Hkey).
  unfold session_of. rewrite Hret. unfold save_session.
  rewrite (session_pairs_valid _ _ _ _ _ Hret).
  unfold build_response. rewrite Hlen.
  destruct (write_json _ _ _) as [[e'|] w]; cbn [fst snd]; intros Hfs;
    [discriminate|].
  split; [reflexivity|]. split; [apply last_last | reflexivity].
Qed.

(** The endpoint function returns a response or raises the HTTP error
    500, nothing else. *)
Lemma run_session_outcome request m :
  (exists response, fst (run_session request m) = Return response)
  \/ (exists detail,
        fst (run_session request m) = Raise (HTTPException 500 detail)).
Proof.
  unfold run_session.
  destruct (getenv_api_key _) as [[|c key]|]; [right; eexists; reflexivity| |
                                               right; eexists; reflexivity].
  destruct (run_qa_session _ _ (c :: key) _) as [r m1].
  destruct r as [ps|[msg|es|msg|code detail]];
    try (right; eexists; reflexivity).
  unfold save_session.
  destruct (QAPair_validate_all ps); [right; eexists; reflexivity|].
  destruct (write_json _ _ _) as [[e|] w];
    [right | left]; eexists; reflexivity.
Qed.

Lemma run_session_grows request m :
  exists xs rs,
    exchanges (snd (run_session request m)) = exchanges m ++ xs
    /\ records (snd (run_session request m)) = records m ++ rs.
Proof.
  unfold run_session.
  set (m0 := logger _ m).
  assert (Hx0 : exchanges m0 = exchanges m) by reflexivity.
  assert (Hr0 : exists r0, records m0 = records m ++ r0)
    by (eexists; reflexivity).
  destruct Hr0 as [r0 Hr0].
  assert (Hnokey : exists xs rs,
             exchanges (logger error_api_key_not_found m0)
             = exchanges m ++ xs
             /\ records (logger error_api_key_not_found m0)
                = records m ++ rs).
  { exists [], (r0 ++ [error_api_key_not_found]).
    rewrite app_nil_r. split; [reflexivity|].
    change (records (logger error_api_key_not_found m0))
      with (records m0 ++ [error_api_key_not_found]).
    now rewrite Hr0, <- app_assoc. }
  destruct (getenv_api_key _) as [[|c key]|].
  - exact Hnokey.
  - rewrite run_qa_session_frame_eq.
    destruct (run_qa_session_frame_run (SessionRequest.subject request)
                (SessionRequest.num_pairs request) (c :: key) m0)
      as [xs [rs [_ [Hx [Hr _]]]]].
    set (m1 := snd (run_qa_session_frame _ _ _ m0)) in Hx, Hr |- *.
    assert (Hend : forall m2 rs',
               exchanges m2 = exchanges m1 -> records m2 = records m1 ++ rs' ->
               exists xs0 rs0,
                 exchanges m2 = exchanges m ++ xs0
                 /\ records m2 = records m ++ rs0).
    { intros m2 rs' H2x H2r. exists xs. eexists.
      rewrite H2x, H2r, Hx, Hr, Hx0, Hr0, <- !app_assoc. auto. }
    destruct (fst (fst _)) as [ps|[msg|es|msg|code detail]]; cbn [snd].
    + destruct (save_session_records (SessionRequest.subject request) ps m1)
        as [rs' Hrs'].
      exact (Hend _ rs' (save_session_exchanges _ ps m1) Hrs').
    + apply (Hend _ [error_runtime msg]); reflexivity.
    + apply (Hend _ [error_unexpected (validation_error_str es)]);
        reflexivity.
    + apply (Hend _ [error_unexpected msg]); reflexivity.
    + apply (Hend _ [error_unexpected detail]); reflexivity.
  - exact Hnokey.
Qed.

(** X5: whatever the body and the state of the world, the endpoint
    answers with status 200, 422 or 500: 422 exactly when the body fails
    validation, 200 exactly when the answer carries a Session Response, and
    otherwise 500 with a detail text.  It only ever adds to the log and to
    the exchanges with the service. *)
Theorem endpoint_statuses :
  forall (b : Body) (m : Machine),
    ((exists es,
        model_validate b = inl es
        /\ fst (post_run_session b m)
           = {| status := 422; body := detail_errors es |})
     \/ (exists request response,
           model_validate b = inr request
           /\ fst (post_run_session b m)
              = {| status := 200; body := session_body response |})
     \/ (exists request detail,
           model_validate b = inr request
           /\ fst (post_run_session b m)
              = {| status := 500; body := detail_text detail |}))
    /\ exists xs rs,
         exchanges (snd (post_run_session b m)) = exchanges m ++ xs
         /\ records (snd (post_run_session b m)) = records m ++ rs.
Proof.
  intros b m. destruct (model_validate b) as [es|request] eqn:Hv.
  - split.
    + left. exists es. split; [reflexivity|].
      unfold post_run_session. rewrite Hv. reflexivity.
    + exists [], []. unfold post_run_session. rewrite Hv. cbn [snd].
      rewrite !app_nil_r. auto.
  - destruct (post_run_session_valid b request m Hv) as [Hsnd _].
    destruct (post_run_session_answer b request m Hv) as [Hok Hraise].
    split.
    + destruct (run_session_outcome request m) as [[resp Hr] | [d Hr]].
      * right. left. exists request, resp. split; [reflexivity|].
        exact (Hok resp Hr).
      * right. right. exists request, d. split; [reflexivity|].
        exact (Hraise 500 d Hr).
    + rewrite Hsnd. apply run_session_grows.
Qed.

(** ** What the pairs are made of *)



(** ** The name of the saved file *)

(** X7: the part of the file name derived from the subject has one
    character per character of the subject, keeps the alphanumeric
    characters where they are and puts an underscore for every other one;
    so a character that is neither alphanumeric nor the underscore never
    occurs in it, a subject of alphanumeric characters is kept as it is,
    and deriving the name again from the derived name changes nothing. *)
Theorem safe_subject_characters :
  forall subject : str,
    List.length (safe_subject subject) = List.length subject
    /\ (forall (k : nat) (c : char),
          nth_error subject k = Some c ->
          nth_error (safe_subject subject) k
          = Some (if isalnum c then c else 95%N))
    /\ (forall c : char,
          In c (safe_subject subject) -> isalnum c = true \/ c = 95%N)
    /\ (forall c : char,
          isalnum c = false -> c <> 95%N -> ~ In c (safe_subject subject))
    /\ (forallb isalnum subject = true -> safe_subject subject = subject)
    /\ safe_subject (safe_subject subject) = safe_subject subject.
Proof.
  intros subject.
  assert (Hin : forall c, In c (safe_subject subject) ->
                          isalnum c = true \/ c = 95%N).
  { intros c Hc. unfold safe_subject in Hc. apply in_map_iff in Hc.
    destruct Hc as [a [Ha _]]. destruct (isalnum a) eqn:Halnum.
    - left. now subst c.
    - right. now subst c. }
  split; [apply length_map|]. split; [|split; [exact Hin|split; [|split]]].
  - intros k c Hk. unfold safe_subject. rewrite nth_error_map, Hk.
    reflexivity.
  - intros c Hc Hne Hc'. destruct (Hin c Hc') as [H|H]; congruence.
  - clear Hin. induction subject as [|a l IH]; simpl; [reflexivity|].
    intros H. apply andb_true_iff in H. destruct H as [Ha Hl].
    rewrite Ha. f_equal. exact (IH Hl).
  - clear Hin. induction subject as [|a l IH]; simpl; [reflexivity|].
    f_equal; [|exact IH].
    destruct (isalnum a) eqn:Ha; [now rewrite Ha|].
    destruct (isalnum 95%N); reflexivity.
Qed.

(** ** Validation again *)

(** X8: validating the fields of a validated request again gives the same
    request: the subject validator returns a subject it accepts unchanged,
    and the count stays within its bounds. *)
Theorem validation_round_trip :
  forall (b : Body) (request : SessionRequest.t),
    model_validate b = inr request ->
    model_validate
      {| body_subject := Some (SessionRequest.subject request);
         body_num_pairs := Some (SessionRequest.num_pairs request) |}
    = inr request.
Proof.
  intros b request Hv.
  destruct (model_validate_inr b request Hv) as [Hs Hn].
  destruct (validate_subject_inr _ _ Hs) as [s [_ [Ht Hne]]].
  destruct (validate_num_pairs_inr _ _ Hn) as [Hrange _].
  unfold model_validate. cbn [body_subject body_num_pairs].
  rewrite validate_subject_ok
    by (rewrite Ht, strip_idempotent; exact Hne).
  rewrite Ht, strip_idempotent, <- Ht.
  unfold validate_num_pairs.
  destruct (Z.ltb_spec (SessionRequest.num_pairs request) 1); [lia|].
  destruct (Z.ltb_spec 50 (SessionRequest.num_pairs request)); [lia|].
  destruct request; reflexivity.
Qed.

(** ** How many exchanges a session has *)

Lemma range_nonpositive (n : Z) : n <= 0 -> range n = [].
Proof.
  intros H. unfold range. replace (Z.to_nat n) with O by lia. reflexivity.
Qed.

(** X9: a session of [N] pairs has at most [2 N] exchanges with the
    service, and exactly [2 N] when it returns, with [N] pairs; for a count
    of zero or less it has none, and returns the empty list after logging
    its start and its completion with 0 pairs. *)
Theorem session_exchange_count :
  forall (subject : str) (N : Z) (api_key : str) (m : Machine),
    (List.length (new_exchanges m (snd (run_qa_session subject N api_key m)))
     <= 2 * Z.to_nat N)%nat
    /\ (forall pairs_data,
          fst (run_qa_session subject N api_key m) = Return pairs_data ->
          List.length
            (new_exchanges m (snd (run_qa_session subject N api_key m)))
          = (2 * Z.to_nat N)%nat
          /\ List.length pairs_data = Z.to_nat N)
    /\ (N <= 0 ->
        run_qa_session subject N api_key m
        = (Return [],
           logger (info_session_completed 0)
             (logger (info_starting_session subject N) m))).
Proof.
  intros subject N api_key m. split; [|split].
  - rewrite run_qa_session_frame_eq. cbn [snd].
    destruct (run_qa_session_frame_run subject N api_key m)
      as [xs [rs [r0 [Hx [_ [Hrun _]]]]]].
    rewrite (new_exchanges_app _ _ _ Hx).
    destruct (loop_run_inv _ _ _ _ _ _ _ Hrun) as [ps [_ [_ [_ Hr]]]].
    destruct r0 as [u|ex].
    + destruct Hr as [_ [_ [Hlx _]]]. rewrite range_length in Hlx. lia.
    + destruct Hr as [oks [rq [e [Hxs [_ [Hl Hcase]]]]]].
      rewrite range_length in Hl. subst xs. rewrite length_app. simpl.
      destruct Hcase as [[Hlo _] | [Hlo _]]; lia.
  - intros pairs_data. rewrite run_qa_session_frame_eq. cbn [fst snd].
    intros Hret.
    destruct (run_qa_session_frame_run subject N api_key m)
      as [xs [rs [r0 [Hx [_ [Hrun Hout]]]]]].
    rewrite (new_exchanges_app _ _ _ Hx).
    destruct (loop_run_inv _ _ _ _ _ _ _ Hrun) as [ps [Hp [_ [_ Hr]]]].
    rewrite Hout in Hret. destruct r0 as [u|ex]; [|discriminate].
    injection Hret as Hret. destruct Hr as [_ [Hl [Hlx _]]].
    rewrite range_length in Hl, Hlx. simpl in Hp.
    split; [exact Hlx|]. now rewrite <- Hret, Hp.
  - intros HN. unfold run_qa_session, run_qa_session_frame.
    rewrite (range_nonpositive N HN). reflexivity.
Qed.

(** ** Which difficulties a session has *)

(** Read over the rationals: the first question is easy, the last of two
    or more is hard, and from three on some question is medium. *)
Lemma difficulty_exact_coverage (N : Z) :
  1 <= N ->
  difficulty_exact 0 N = lit "easy"
  /\ (2 <= N -> difficulty_exact (N - 1) N = lit "hard")
  /\ (3 <= N ->
      exists i, 0 <= i < N /\ difficulty_exact i N = lit "medium").
Proof.
  intros HN. unfold difficulty_exact. split; [|split].
  - destruct (Z.ltb_spec (100 * 0) (33 * Z.max (N - 1) 1)); [reflexivity|].
    lia.
  - intros H2. rewrite Z.max_l by lia.
    destruct (Z.ltb_spec (100 * (N - 1)) (33 * (N - 1))); [lia|].
    destruct (Z.ltb_spec (100 * (N - 1)) (66 * (N - 1))); [lia|].
    reflexivity.
  - intros H3. rewrite Z.max_l by lia.
    exists (33 * (N - 1) / 100 + 1).
    pose proof (Z.div_mod (33 * (N - 1)) 100 ltac:(lia)) as Hdm.
    pose proof (Z.mod_pos_bound (33 * (N - 1)) 100 ltac:(lia)) as Hmb.
    set (q := 33 * (N - 1) / 100) in Hdm |- *.
    set (rm := (33 * (N - 1)) mod 100) in Hdm, Hmb.
    assert (Hq : 100 * q + 100 < 66 * (N - 1) \/ N = 3 \/ N = 4) by lia.
    destruct Hq as [Hq | [-> | ->]].
    + split; [lia|].
      destruct (Z.ltb_spec (100 * (q + 1)) (33 * (N - 1))); [lia|].
      destruct (Z.ltb_spec (100 * (q + 1)) (66 * (N - 1))); [reflexivity|].
      lia.
    + split; [vm_compute; split; [discriminate | reflexivity]|].
      reflexivity.
    + split; [vm_compute; split; [discriminate | reflexivity]|].
      reflexivity.
Qed.

(** X10: in a session of [N] pairs, [N] in 1..50, the first question is
    asked at the easy level; when there are two or more the last one is
    asked at the hard level; and when there are three or more some
    question is asked at the medium level. *)
Theorem difficulty_coverage :
  forall N : Z,
    1 <= N <= 50 ->
    difficulty_at 0 N = lit "easy"
    /\ (2 <= N -> difficulty_at (N - 1) N = lit "hard")
    /\ (3 <= N ->
        exists i, 0 <= i < N /\ difficulty_at i N = lit "medium").
Proof.
  intros N HN.
  destruct (difficulty_exact_coverage N ltac:(lia)) as [H0 [Hlast Hmid]].
  split; [|split].
  - rewrite difficulty_at_exact by lia. exact H0.
  - intros H2. rewrite difficulty_at_exact by lia. exact (Hlast H2).
  - intros H3. destruct (Hmid H3) as [i [Hi Hm]].
    exists i. split; [exact Hi|].
    rewrite difficulty_at_exact by lia. exact Hm.
Qed.

(** ** The history and the pairs *)

(** X11: whenever a session is left, by return or by an error, the
    history of the question agent is the questions of the pairs made, in
    order, followed by at most one question that has no pair; when the
    session returns there is no such question and the pairs returned are
    the pairs made. *)
Theorem history_tracks_pairs :
  forall (subject : str) (N : Z) (api_key : str) (m : Machine),
    exists pending : list str,
      history (snd (fst (run_qa_session_frame subject N api_key m)))
      = List.map PairDict.question
          (pairs (snd (fst (run_qa_session_frame subject N api_key m))))
        ++ pending
      /\ (List.length pending <= 1)%nat
      /\ (forall pairs_data,
            fst (run_qa_session subject N api_key m) = Return pairs_data ->
            pending = []
            /\ pairs_data
               = pairs (snd (fst (run_qa_session_frame
                                    subject N api_key m)))).
Proof.
  intros subject N api_key m.
  rewrite run_qa_session_frame_eq. cbn [fst].
  destruct (run_qa_session_frame_run subject N api_key m)
    as [xs [rs [r0 [_ [_ [Hrun Hout]]]]]].
  destruct (loop_run_inv _ _ _ _ _ _ _ Hrun) as [ps [Hp [_ [_ Hr]]]].
  simpl in Hp. rewrite Hout, Hp. destruct r0 as [u|ex].
  - destruct Hr as [_ [_ [_ Hh]]]. simpl in Hh.
    exists []. rewrite app_nil_r. split; [exact Hh|].
    split; [simpl; lia|]. intros pairs_data Hret. simpl in Hret.
    injection Hret as <-. auto.
  - destruct Hr as [oks [rq [e [_ [_ [_ Hcase]]]]]].
    destruct Hcase as [[_ [_ [Hh _]]] | [_ [_ [q [Hh _]]]]]; simpl in Hh.
    + exists []. rewrite app_nil_r. split; [exact Hh|].
      split; [simpl; lia|]. intros pairs_data Hret. discriminate Hret.
    + exists [q]. split; [exact Hh|].
      split; [simpl; lia|]. intros pairs_data Hret. discriminate Hret.
Qed.

(** ** Texts of whitespace only *)

(** X12: the generators accept whatever text the service gives.  When
    the text is empty or whitespace only, [generate_question] returns the
    empty question and appends it to the history like any other, and
    [generate_answer] returns the empty answer; neither raises an error. *)
Theorem blank_text_accepted :
  (forall (self : QuestionAgent.t) (subject : str) (i N : Z) (m : Machine)
          (text : str),
      fst (create (QuestionAgent.api_key self)
             (question_request_of self subject i N) m) = Content text ->
      forallb isspace text = true ->
      fst (generate_question self subject i N m)
      = (Return [], QuestionAgent.append self [])
      /\ QuestionAgent.question_history
           (snd (fst (generate_question self subject i N m)))
         = QuestionAgent.question_history self ++ [[]])
  /\ (forall (self : AnswerAgent.t) (question : str) (m : Machine)
             (text : str),
         fst (create (AnswerAgent.api_key self)
                (answer_request self (answer_prompt question)) m)
         = Content text ->
         forallb isspace text = true ->
         fst (generate_answer self question m) = Return []).
Proof.
  split.
  - intros self subject i N m text Hc Hblank.
    unfold generate_question. fold (question_request_of self subject i N).
    destruct (create _ _ m) as [c m1]. cbn [fst] in Hc. subst c.
    cbn [fst snd]. rewrite (strip_blank text Hblank). split; reflexivity.
  - intros self question m text Hc Hblank.
    unfold generate_answer.
    destruct (create _ _ m) as [c m1]. cbn [fst] in Hc. subst c.
    cbn [fst]. rewrite (strip_blank text Hblank). reflexivity.
Qed.

End Program.

Arguments world {World} m.
Arguments records {World} m.
Arguments exchanges {World} m.
Arguments new_exchanges {World} m m'.
Arguments new_records {World} m m'.

(** ** The properties on concrete runs

    The runs below are on the scripted world: a session on
    Photosynthesis, with the answers of the completion service given one
    by one. *)


(** C2 at the second of three iterations: its progress is between the
    two literals, so that it is medium. *)
Lemma difficulty_rule_witness :
  1 <= 3 /\ 0 <= 1 < 3
  /\ f64_leb literal_0_33 (truediv 1 (Z.max (3 - 1) 1)) = true
  /\ f64_ltb (truediv 1 (Z.max (3 - 1) 1)) literal_0_66 = true
  /\ difficulty_at 1 3 = lit "medium".
Proof.
  assert (HN : 1 <= 3) by lia.
  assert (Hi : 0 <= 1 < 3) by lia.
  assert (Hlo : f64_leb literal_0_33 (truediv 1 (Z.max (3 - 1) 1)) = true)
    by reflexivity.
  assert (Hhi : f64_ltb (truediv 1 (Z.max (3 - 1) 1)) literal_0_66 = true)
    by reflexivity.
  split; [exact HN|]. split; [exact Hi|].
  split; [exact Hlo|]. split; [exact Hhi|].
  exact (proj2 (proj1 (proj2 (proj1 (proj2 (difficulty_rule Scripted.World
                                              Scripted.chat_completions_create))
                                1 3 HN Hi)))
           (conj Hlo Hhi)).
Defined.

(** C3 when the second answer fails. *)
Lemma failed_session_aborts_witness :
  let m : Machine Scripted.World :=
    {| world := [Content (lit "What is photosynthesis?");
                 Content (lit "The making of sugar from light.");
                 Content (lit "Why are leaves green?");
                 Failure (lit "Request timed out.")];
       records := []; exchanges := [] |} in
  let run := run_qa_session Scripted.World Scripted.chat_completions_create
               (lit "Photosynthesis") 3 (lit "sk-test") m in
  forallb succeeded (new_exchanges m (snd run)) = false
  /\ exists e, fst run = Raise e.
Proof.
  intros m run.
  assert (Hbad : forallb succeeded (new_exchanges m (snd run)) = false)
    by reflexivity.
  split; [exact Hbad|].
  destruct (failed_session_aborts Scripted.World
              Scripted.chat_completions_create
              (lit "Photosynthesis") 3 (lit "sk-test") m Hbad)
    as [k [oks [rq [msg [e [_ [_ [_ [Hret _]]]]]]]]].
  exists e. exact Hret.
Defined.

(** C4 at the fifth iteration of a session of five pairs: four questions
    asked, the last three of them listed in the prompt. *)
Lemma history_window_bounded_witness :
  let m : Machine Scripted.World :=
    {| world := [Content (lit "Q1"); Content (lit "A1");
                 Content (lit "Q2"); Content (lit "A2");
                 Content (lit "Q3"); Content (lit "A3");
                 Content (lit "Q4"); Content (lit "A4");
                 Content (lit "Q5"); Content (lit "A5")];
       records := []; exchanges := [] |} in
  let run := run_qa_session_frame Scripted.World
               Scripted.chat_completions_create
               (lit "Photosynthesis") 5 (lit "sk-test") m in
  (2 * 4 < List.length (new_exchanges m (snd run)))%nat
  /\ exists (h w : list str) (c : Completion),
       h = [lit "Q1"; lit "Q2"; lit "Q3"; lit "Q4"]
       /\ w = [lit "Q2"; lit "Q3"; lit "Q4"]
       /\ List.length w = 3%nat
       /\ nth_error (new_exchanges m (snd run)) (2 * 4)
          = Some
              (question_request
                 (with_history (QuestionAgent.init (lit "sk-test")) h)
                 (question_prompt (lit "hard") (lit "Photosynthesis")
                    (lit "

Previously asked questions:
- Q2
- Q3
- Q4")), c).
Proof.
  intros m run.
  assert (Hi : (2 * 4 < List.length (new_exchanges m (snd run)))%nat)
    by (vm_compute; lia).
  split; [exact Hi|].
  destruct (proj1 (proj2 (history_window_bounded Scripted.World
                            Scripted.chat_completions_create))
              (lit "Photosynthesis") 5 (lit "sk-test") m 4%nat Hi)
    as [h [w [c [Hh [_ [Hw [Hl Hrq]]]]]]].
  assert (Hh' : h = [lit "Q1"; lit "Q2"; lit "Q3"; lit "Q4"])
    by (rewrite Hh; reflexivity).
  assert (Hw' : w = [lit "Q2"; lit "Q3"; lit "Q4"])
    by (rewrite Hw, Hh'; reflexivity).
  exists h, w, c. split; [exact Hh'|]. split; [exact Hw'|].
  split; [exact Hl|].
  refine (eq_trans Hrq _). rewrite Hw', Hh'. reflexivity.
Defined.

(** C5 when the answer to the second question fails. *)
Lemma question_recorded_before_answer_witness :
  let m : Machine Scripted.World :=
    {| world := [Content (lit " What is photosynthesis? ");
                 Content (lit "The making of sugar from light.");
                 Content (lit "Why are leaves green?  ");
                 Failure (lit "Request timed out.")];
       records := []; exchanges := [] |} in
  let run := run_qa_session_frame Scripted.World
               Scripted.chat_completions_create
               (lit "Photosynthesis") 3 (lit "sk-test") m in
  (exists oks,
     new_exchanges m (snd run)
     = oks ++ [(answer_request (AnswerAgent.init (lit "sk-test"))
                  (answer_prompt (lit "Why are leaves green?")),
                Failure (lit "Request timed out."))])
  /\ history (snd (fst run))
     = [lit "What is photosynthesis?"; lit "Why are leaves green?"]
  /\ List.map PairDict.question (pairs (snd (fst run)))
     = [lit "What is photosynthesis?"].
Proof.
  intros m run.
  set (oks := firstn 3 (new_exchanges m (snd run))).
  assert (Hxs : new_exchanges m (snd run)
                = oks ++ [(answer_request (AnswerAgent.init (lit "sk-test"))
                             (answer_prompt (lit "Why are leaves green?")),
                           Failure (lit "Request timed out."))])
    by reflexivity.
  split; [exists oks; exact Hxs|].
  destruct (proj2 (question_recorded_before_answer Scripted.World
                     Scripted.chat_completions_create)
              (lit "Photosynthesis") 3 (lit "sk-test") m oks
              (lit "Why are leaves green?") (lit "Request timed out.") Hxs)
    as [Hh _].
  split; [exact (eq_trans Hh eq_refl) | reflexivity].
Defined.

(** C6 at the indices 2^62 and 2^63 of a session of 2^64 pairs. *)
Lemma difficulty_monotone_witness :
  0 <= 2 ^ 62 <= 2 ^ 63 /\ 2 ^ 63 < 2 ^ 64
  /\ exists a b,
       level (difficulty_at (2 ^ 62) (2 ^ 64)) = Some a
       /\ level (difficulty_at (2 ^ 63) (2 ^ 64)) = Some b
       /\ (a <= b)%nat.
Proof.
  assert (Hij : 0 <= 2 ^ 62 <= 2 ^ 63) by (split; discriminate).
  assert (Hj : 2 ^ 63 < 2 ^ 64) by reflexivity.
  split; [exact Hij|]. split; [exact Hj|].
  exact (difficulty_monotone (2 ^ 64) (2 ^ 62) (2 ^ 63) Hij Hj).
Defined.

(** C7 at a subject of two spaces. *)
Lemma invalid_request_rejected_witness :
  let b := {| body_subject := Some (lit "  "); body_num_pairs := Some 3 |} in
  let m : Machine Scripted.World :=
    {| world := [Content (lit "Q1"); Content (lit "A1")];
       records := []; exchanges := [] |} in
  (exists s, body_subject b = Some s /\ forallb isspace s = true)
  /\ status (fst (post_run_session Scripted.World
                    Scripted.chat_completions_create Scripted.getenv_api_key
                    Scripted.strftime_now Scripted.isalnum
                    Scripted.write_json Scripted.validation_error_str b m))
     = 422
  /\ snd (post_run_session Scripted.World
            Scripted.chat_completions_create Scripted.getenv_api_key
            Scripted.strftime_now Scripted.isalnum
            Scripted.write_json Scripted.validation_error_str b m)
     = m.
Proof.
  intros b m.
  assert (Hblank : exists s, body_subject b = Some s
                             /\ forallb isspace s = true)
    by (exists (lit "  "); split; reflexivity).
  split; [exact Hblank|].
  destruct (proj1 (invalid_request_rejected Scripted.World
                     Scripted.chat_completions_create Scripted.getenv_api_key
                     Scripted.strftime_now Scripted.isalnum
                     Scripted.write_json Scripted.validation_error_str)
              b m (or_intror (or_introl Hblank)))
    as [e [es [_ [Hpost _]]]].
  rewrite Hpost. split; reflexivity.
Defined.

(** C8 at the second exchange of a session. *)
Lemma generation_configurations_witness :
  let m : Machine Scripted.World :=
    {| world := [Content (lit "Q1"); Content (lit "A1")];
       records := []; exchanges := [] |} in
  let run := run_qa_session Scripted.World Scripted.chat_completions_create
               (lit "Photosynthesis") 1 (lit "sk-test") m in
  exists rq c,
    nth_error (new_exchanges m (snd run)) 1 = Some (rq, c)
    /\ temperature rq = 0.5%float /\ max_tokens rq = 500.
Proof.
  intros m run.
  set (rq := answer_request (AnswerAgent.init (lit "sk-test"))
               (answer_prompt (lit "Q1"))).
  assert (Hnth : nth_error (new_exchanges m (snd run)) 1
                 = Some (rq, Content (lit "A1"))) by reflexivity.
  exists rq, (Content (lit "A1")). split; [exact Hnth|].
  destruct (proj2 (proj2 (proj2 (proj2 (proj2
              (generation_configurations Scripted.World
                 Scripted.chat_completions_create)))))
              (lit "Photosynthesis") 1 (lit "sk-test") m 1%nat rq
              (Content (lit "A1")) Hnth)
    as [[Heven _] | [_ [self [prompt Hrq]]]]; [discriminate Heven|].
  rewrite Hrq. split; reflexivity.
Defined.

(** C9 at a subject with blanks around it. *)
Lemma num_pairs_default_witness :
  strip (lit " Photosynthesis ") <> []
  /\ model_validate {| body_subject := Some (lit " Photosynthesis ");
                       body_num_pairs := None |}
     = inr {| SessionRequest.subject := lit "Photosynthesis";
              SessionRequest.num_pairs := 10 |}.
Proof.
  assert (Hs : strip (lit " Photosynthesis ") <> []) by discriminate.
  split; [exact Hs|].
  exact (proj1 (num_pairs_default Scripted.World
                  Scripted.chat_completions_create Scripted.getenv_api_key
                  Scripted.strftime_now Scripted.isalnum
                  Scripted.write_json Scripted.validation_error_str
                  (lit " Photosynthesis ") Hs)).
Defined.

(** C10 at a subject with blanks around it. *)
Lemma subject_stripped_witness :
  let b := {| body_subject := Some (lit "  Cell biology ");
              body_num_pairs := Some 1 |} in
  let request := {| SessionRequest.subject := lit "Cell biology";
                    SessionRequest.num_pairs := 1 |} in
  let m : Machine Scripted.World :=
    {| world := [Content (lit "Q1"); Content (lit "A1")];
       records := []; exchanges := [] |} in
  let out := post_run_session Scripted.World
               Scripted.chat_completions_create Scripted.getenv_api_key
               Scripted.strftime_now Scripted.isalnum
               Scripted.write_json Scripted.validation_error_str b m in
  model_validate b = inr request
  /\ (exists response,
        body (fst out) = session_body response
        /\ SessionResponse.subject response = lit "Cell biology")
  /\ last (records (snd out)) error_api_key_not_found
     = info_session_saved
         (lit "qa_sessions/qa_session_Cell_biology_20240101_120000.json").
Proof.
  intros b request m out.
  assert (Hv : model_validate b = inr request) by reflexivity.
  split; [exact Hv|].
  destruct (subject_stripped Scripted.World
              Scripted.chat_completions_create Scripted.getenv_api_key
              Scripted.strftime_now Scripted.isalnum
              Scripted.write_json Scripted.validation_error_str
              b request Hv)
    as [s [pre [post [Hb [_ [_ [_ [_ [_ [_ [_ Hresp]]]]]]]]]]].
  injection Hb as <-.
  assert (Hbody : exists response, body (fst out) = session_body response)
    by (eexists; reflexivity).
  destruct Hbody as [response Hbody].
  destruct (Hresp m response Hbody) as [Hsubj [ts Hfile]].
  split; [exists response; split; [exact Hbody | exact Hsubj]|].
  reflexivity.
Defined.

(** ** The scenario of three pairs on Photosynthesis

    The three question requests are framed easy, medium and hard, each
    lists the questions asked before it, and the pairs come back numbered
    1, 2, 3. *)
Example photosynthesis_session :
  let m : Machine Scripted.World :=
    {| world := [Content (lit "Q1"); Content (lit "A1");
                 Content (lit "Q2"); Content (lit "A2");
                 Content (lit "Q3"); Content (lit "A3")];
       records := []; exchanges := [] |} in
  let run := run_qa_session Scripted.World Scripted.chat_completions_create
               (lit "Photosynthesis") 3 (lit "sk-test") m in
  let agent := QuestionAgent.init (lit "sk-test") in
  fst run
  = Return [ {| PairDict.id := 1; PairDict.question := lit "Q1";
                PairDict.answer := lit "A1" |};
             {| PairDict.id := 2; PairDict.question := lit "Q2";
                PairDict.answer := lit "A2" |};
             {| PairDict.id := 3; PairDict.question := lit "Q3";
                PairDict.answer := lit "A3" |} ]
  /\ List.map fst (exchanges (snd run))
     = [ question_request agent
           (question_prompt (lit "easy") (lit "Photosynthesis") []);
         answer_request (AnswerAgent.init (lit "sk-test"))
           (answer_prompt (lit "Q1"));
         question_request agent
           (question_prompt (lit "medium") (lit "Photosynthesis")
              (history_context [lit "Q1"]));
         answer_request (AnswerAgent.init (lit "sk-test"))
           (answer_prompt (lit "Q2"));
         question_request agent
           (question_prompt (lit "hard") (lit "Photosynthesis")
              (history_context [lit "Q1"; lit "Q2"]));
         answer_request (AnswerAgent.init (lit "sk-test"))
           (answer_prompt (lit "Q3")) ].
Proof. split; reflexivity. Qed.

(** ** Further properties on concrete runs *)

(** X1 in an environment without the key. *)
Lemma missing_key_no_session_witness :
  let b := {| body_subject := Some (lit "Photosynthesis");
              body_num_pairs := Some 3 |} in
  let request := {| SessionRequest.subject := lit "Photosynthesis";
                    SessionRequest.num_pairs := 3 |} in
  let m : Machine Scripted.World :=
    {| world := [Content (lit "Q1")]; records := []; exchanges := [] |} in
  let out := post_run_session Scripted.World
               Scripted.chat_completions_create Scripted.getenv_unset
               Scripted.strftime_now Scripted.isalnum
               Scripted.write_json Scripted.validation_error_str b m in
  model_validate b = inr request
  /\ (Scripted.getenv_unset (world m) = None
      \/ Scripted.getenv_unset (world m) = Some [])
  /\ status (fst out) = 500
  /\ exchanges (snd out) = [].
Proof.
  intros b request m out.
  assert (Hv : model_validate b = inr request) by reflexivity.
  assert (Hkey : Scripted.getenv_unset (world m) = None
                 \/ Scripted.getenv_unset (world m) = Some [])
    by (left; reflexivity).
  split; [exact Hv|]. split; [exact Hkey|].
  destruct (missing_key_no_session Scripted.World
              Scripted.chat_completions_create Scripted.getenv_unset
              Scripted.strftime_now Scripted.isalnum
              Scripted.write_json Scripted.validation_error_str
              b request m Hv Hkey) as [Hfst [Hx _]].
  split; [exact (f_equal status Hfst) | exact Hx].
Defined.

(** X2 when the first answer fails. *)
Lemma generation_failure_500_witness :
  let b := {| body_subject := Some (lit "Photosynthesis");
              body_num_pairs := Some 2 |} in
  let request := {| SessionRequest.subject := lit "Photosynthesis";
                    SessionRequest.num_pairs := 2 |} in
  let m : Machine Scripted.World :=
    {| world := [Content (lit "Q1"); Failure (lit "Rate limit reached.")];
       records := []; exchanges := [] |} in
  let out := post_run_session Scripted.World
               Scripted.chat_completions_create Scripted.getenv_api_key
               Scripted.strftime_now Scripted.isalnum
               Scripted.write_json Scripted.validation_error_str b m in
  model_validate b = inr request
  /\ Scripted.getenv_api_key (world m) = Some (115%N :: lit "k-test")
  /\ forallb succeeded (new_exchanges m (snd out)) = false
  /\ exists detail,
       fst out = {| status := 500; body := detail_text detail |}.
Proof.
  intros b request m out.
  assert (Hv : model_validate b = inr request) by reflexivity.
  assert (Hkey : Scripted.getenv_api_key (world m)
                 = Some (115%N :: lit "k-test")) by reflexivity.
  assert (Hbad : forallb succeeded (new_exchanges m (snd out)) = false)
    by reflexivity.
  split; [exact Hv|]. split; [exact Hkey|]. split; [exact Hbad|].
  destruct (generation_failure_500 Scripted.World
              Scripted.chat_completions_create Scripted.getenv_api_key
              Scripted.strftime_now Scripted.isalnum
              Scripted.write_json Scripted.validation_error_str
              b request m 115%N (lit "k-test") Hv Hkey Hbad)
    as [oks [rq [msg [detail [_ [_ [Hfst _]]]]]]].
  exists detail. exact Hfst.
Defined.

(** X3 on a file system that refuses the write. *)
Lemma write_failure_500_witness :
  let request := {| SessionRequest.subject := lit "Photosynthesis";
                    SessionRequest.num_pairs := 1 |} in
  let m : Machine Scripted.World :=
    {| world := [Content (lit "Q1"); Content (lit "A1")];
       records := []; exchanges := [] |} in
  let pairs_data := [ {| PairDict.id := 1; PairDict.question := lit "Q1";
                         PairDict.answer := lit "A1" |} ] in
  let session := session_of Scripted.World Scripted.chat_completions_create
                   request (lit "sk-test") m in
  Scripted.getenv_api_key (world m) = Some (115%N :: lit "k-test")
  /\ fst session = Return pairs_data
  /\ fst (Scripted.write_json_denied
            (session_filepath Scripted.isalnum
               (SessionRequest.subject request)
               (Scripted.strftime_now (world (snd session))))
            (build_response (SessionRequest.subject request)
               (List.map qapair_of pairs_data))
            (world (snd session)))
     = Some (lit "Permission denied")
  /\ fst (run_session Scripted.World
            Scripted.chat_completions_create Scripted.getenv_api_key
            Scripted.strftime_now Scripted.isalnum
            Scripted.write_json_denied Scripted.validation_error_str
            request m)
     = Raise (HTTPException 500
                (lit "An unexpected error occurred: Permission denied")).
Proof.
  intros request m pairs_data session.
  assert (Hkey : Scripted.getenv_api_key (world m)
                 = Some (115%N :: lit "k-test")) by reflexivity.
  assert (Hret : fst session = Return pairs_data) by reflexivity.
  assert (Hwrite :
    fst (Scripted.write_json_denied
           (session_filepath Scripted.isalnum
              (SessionRequest.subject request)
              (Scripted.strftime_now (world (snd session))))
           (build_response (SessionRequest.subject request)
              (List.map qapair_of pairs_data))
           (world (snd session)))
    = Some (lit "Permission denied")) by reflexivity.
  split; [exact Hkey|]. split; [exact Hret|]. split; [exact Hwrite|].
  exact (proj1 (write_failure_500 Scripted.World
                  Scripted.chat_completions_create Scripted.getenv_api_key
                  Scripted.strftime_now Scripted.isalnum
                  Scripted.write_json_denied Scripted.validation_error_str
                  request m 115%N (lit "k-test") pairs_data
                  (lit "Permission denied") Hkey Hret Hwrite)).
Defined.

(** X4 on a session of one pair. *)
Lemma successful_request_saved_witness :
  let request := {| SessionRequest.subject := lit "Cell biology";
                    SessionRequest.num_pairs := 1 |} in
  let m : Machine Scripted.World :=
    {| world := [Content (lit "Q1"); Content (lit "A1")];
       records := []; exchanges := [] |} in
  let session := session_of Scripted.World Scripted.chat_completions_create
                   request (lit "sk-test") m in
  let response :=
    {| SessionResponse.subject := lit "Cell biology";
       SessionResponse.num_pairs := 1;
       SessionResponse.pairs :=
         [ {| QAPair.id := 1; QAPair.question := lit "Q1";
              QAPair.answer := lit "A1" |} ] |} in
  Scripted.getenv_api_key (world m) = Some (115%N :: lit "k-test")
  /\ forallb succeeded
       (new_exchanges (request_logged Scripted.World request m)
          (snd session)) = true
  /\ fst (Scripted.write_json
            (lit "qa_sessions/qa_session_Cell_biology_20240101_120000.json")
            response (world (snd session))) = None
  /\ fst (run_session Scripted.World
            Scripted.chat_completions_create Scripted.getenv_api_key
            Scripted.strftime_now Scripted.isalnum
            Scripted.write_json Scripted.validation_error_str request m)
     = Return response.
Proof.
  intros request m session response.
  assert (Hkey : Scripted.getenv_api_key (world m)
                 = Some (115%N :: lit "k-test")) by reflexivity.
  assert (Hall : forallb succeeded
                   (new_exchanges (request_logged Scripted.World request m)
                      (snd session)) = true) by reflexivity.
  assert (Hfs : fst (Scripted.write_json
                       (lit "qa_sessions/qa_session_Cell_biology_20240101_120000.json")
                       response (world (snd session))) = None)
    by reflexivity.
  split; [exact Hkey|]. split; [exact Hall|]. split; [exact Hfs|].
  destruct (successful_request_saved Scripted.World
              Scripted.chat_completions_create Scripted.getenv_api_key
              Scripted.strftime_now Scripted.isalnum
              Scripted.write_json Scripted.validation_error_str
              request m 115%N (lit "k-test") Hkey Hall)
    as [ps [Hret Hsaved]].
  change (fst session = Return ps) in Hret.
  assert (Hps : fst session
                = Return [ {| PairDict.id := 1; PairDict.question := lit "Q1";
                              PairDict.answer := lit "A1" |} ])
    by reflexivity.
  rewrite Hps in Hret. injection Hret as <-.
  exact (proj1 (Hsaved Hfs)).
Defined.


(** X7 on a subject with a blank and a slash. *)
Lemma safe_subject_characters_witness :
  Scripted.isalnum 47%N = false
  /\ 47%N <> 95%N
  /\ ~ In 47%N (safe_subject Scripted.isalnum (lit "C3/C4 plants"))
  /\ safe_subject Scripted.isalnum (lit "C3/C4 plants")
     = lit "C3_C4_plants".
Proof.
  assert (Hs : Scripted.isalnum 47%N = false) by reflexivity.
  assert (Hu : 47%N <> 95%N) by discriminate.
  split; [exact Hs|]. split; [exact Hu|].
  split; [|reflexivity].
  exact (proj1 (proj2 (proj2 (proj2
           (safe_subject_characters Scripted.isalnum
              (lit "C3/C4 plants")))))
           47%N Hs Hu).
Defined.

(** X8 on a body with blanks around the subject and no count. *)
Lemma validation_round_trip_witness :
  let b := {| body_subject := Some (lit "  Cell biology ");
              body_num_pairs := None |} in
  let request := {| SessionRequest.subject := lit "Cell biology";
                    SessionRequest.num_pairs := 10 |} in
  model_validate b = inr request
  /\ model_validate {| body_subject := Some (lit "Cell biology");
                       body_num_pairs := Some 10 |}
     = inr request.
Proof.
  intros b request.
  assert (Hv : model_validate b = inr request) by reflexivity.
  split; [exact Hv|].
  exact (validation_round_trip b request Hv).
Defined.

(** X9 on a session that stops at its third exchange, and on a count of
    zero. *)
Lemma session_exchange_count_witness :
  let m : Machine Scripted.World :=
    {| world := [Content (lit "Q1"); Content (lit "A1");
                 Failure (lit "Connection error.")];
       records := []; exchanges := [] |} in
  (List.length
     (new_exchanges m
        (snd (run_qa_session Scripted.World Scripted.chat_completions_create
                (lit "Photosynthesis") 5 (lit "sk-test") m))) <= 10)%nat
  /\ 0 <= 0
  /\ fst (run_qa_session Scripted.World Scripted.chat_completions_create
            (lit "Photosynthesis") 0 (lit "sk-test") m) = Return [].
Proof.
  intros m.
  split; [|split; [lia|]].
  - exact (proj1 (session_exchange_count Scripted.World
                    Scripted.chat_completions_create
                    (lit "Photosynthesis") 5 (lit "sk-test") m)).
  - exact (f_equal fst
             (proj2 (proj2 (session_exchange_count Scripted.World
                              Scripted.chat_completions_create
                              (lit "Photosynthesis") 0 (lit "sk-test") m))
                (Z.le_refl 0))).
Defined.

(** X10 at ten pairs. *)
Lemma difficulty_coverage_witness :
  1 <= 10 <= 50
  /\ difficulty_at 0 10 = lit "easy"
  /\ difficulty_at (10 - 1) 10 = lit "hard"
  /\ exists i, 0 <= i < 10 /\ difficulty_at i 10 = lit "medium".
Proof.
  assert (HN : 1 <= 10 <= 50) by lia.
  destruct (difficulty_coverage 10 HN) as [H0 [Hlast Hmid]].
  split; [exact HN|]. split; [exact H0|].
  split; [apply Hlast; lia | apply Hmid; lia].
Defined.

(** X11 on a session left with a question that got no answer. *)
Lemma history_tracks_pairs_witness :
  let m : Machine Scripted.World :=
    {| world := [Content (lit "Q1"); Content (lit "A1");
                 Content (lit "Q2"); Failure (lit "Connection error.")];
       records := []; exchanges := [] |} in
  let fr := snd (fst (run_qa_session_frame Scripted.World
                        Scripted.chat_completions_create
                        (lit "Photosynthesis") 3 (lit "sk-test") m)) in
  exists pending,
    history fr = List.map PairDict.question (pairs fr) ++ pending
    /\ (List.length pending <= 1)%nat.
Proof.
  intros m fr.
  destruct (history_tracks_pairs Scripted.World
              Scripted.chat_completions_create
              (lit "Photosynthesis") 3 (lit "sk-test") m)
    as [pending [Hh [Hl _]]].
  exists pending. split; [exact Hh | exact Hl].
Defined.

(** X12 on a text of two blanks and a line end. *)
Lemma blank_text_accepted_witness :
  let m : Machine Scripted.World :=
    {| world := [Content [32%N; 32%N; 10%N]];
       records := []; exchanges := [] |} in
  let self := QuestionAgent.init (lit "sk-test") in
  fst (create Scripted.World Scripted.chat_completions_create
         (QuestionAgent.api_key self)
         (question_request_of self (lit "Photosynthesis") 0 3) m)
  = Content [32%N; 32%N; 10%N]
  /\ forallb isspace [32%N; 32%N; 10%N] = true
  /\ fst (generate_question Scripted.World Scripted.chat_completions_create
            self (lit "Photosynthesis") 0 3 m)
     = (Return [], QuestionAgent.append self []).
Proof.
  intros m self.
  assert (Hc : fst (create Scripted.World Scripted.chat_completions_create
                      (QuestionAgent.api_key self)
                      (question_request_of self (lit "Photosynthesis") 0 3)
                      m)
               = Content [32%N; 32%N; 10%N]) by reflexivity.
  assert (Hb : forallb isspace [32%N; 32%N; 10%N] = true) by reflexivity.
  split; [exact Hc|]. split; [exact Hb|].
  exact (proj1 (proj1 (blank_text_accepted Scripted.World
                         Scripted.chat_completions_create)
                  self (lit "Photosynthesis") 0 3 m
                  [32%N; 32%N; 10%N] Hc Hb)).
Defined.
